(** * RTFM: binary-options session ledger and its command interpreter

    A shallow embedding of [src/core/main.py]: the [Trade] record, the
    [Session] ledger ([add_trade], [undo_last_trade], [_recalculate_streaks],
    [should_stop], [stats]) and the command part of [BinOptTUI]
    ([handle_command], the key dispatch of [run], the stop-loss amount of
    [draw_status_bar] and the row selection of [draw_history]).

    Modelling conventions.
    - Python [float] values are modelled twice.  The first model takes
      exact rationals [Q]: it is used for what does not depend on rounding
      (which branch runs, what is copied, counters, text, the structure of
      the history).  The second, [Binary64], takes IEEE 754 binary64 and is
      used for every property of computed balances, percentages and
      thresholds.
    - Python [int] values (streak counters, lengths, scroll offset) are [Z].
    - Exceptions are explicit: a function that can raise returns a [py A],
      either [Ok a] or [Raise e].
      Division by zero raises [ZeroDivisionError], as it does for Python
      floats and ints.
    - Mutation of [self] is explicit state passing: a method returns the new
      session next to its return value.
    - Clock readings ([datetime.now()]) are inputs of the operations that
      take them. *)

From Stdlib Require Import ZArith QArith Qminmax List String Ascii Bool Lia Lqa.
From Stdlib Require Import DecimalString Qpower.
From Stdlib Require Import PrimFloat.
Import ListNotations.

Open Scope string_scope.
Open Scope Z_scope.
Open Scope Q_scope.

(** ** Exceptions *)

Inductive exn : Type :=
| ZeroDivisionError
| ValueError.

Inductive py (A : Type) : Type :=
| Ok (a : A)
| Raise (e : exn).

Arguments Ok {A} a.
Arguments Raise {A} e.

Definition bind {A B : Type} (m : py A) (k : A -> py B) : py B :=
  match m with
  | Ok a => k a
  | Raise e => Raise e
  end.

Declare Scope py_scope.
Delimit Scope py_scope with py.
Notation "x <- m ;; k" := (bind m (fun x => k))
  (at level 61, m at next level, right associativity) : py_scope.
Open Scope py_scope.

(** ** Numbers *)

(** [x / y] on Python numbers: raises on a zero divisor. *)
Definition pydiv (x y : Q) : py Q :=
  if Qeq_bool y 0 then Raise ZeroDivisionError else Ok (x / y).

Definition Qlt_bool (x y : Q) : bool := negb (Qle_bool y x).

(** [max(a, b)] and [min(a, b)] of Python: the first argument wins ties. *)
Definition pymax (a b : Q) : Q := if Qlt_bool a b then b else a.
Definition pymin (a b : Q) : Q := if Qlt_bool b a then b else a.

(** [len(xs)] as a Python int. *)
Definition len {A : Type} (xs : list A) : Z := Z.of_nat (List.length xs).

(** [str(n)] for an int. *)
Definition str_int (n : Z) : string := NilZero.string_of_int (Z.to_int n).

(** ** Trades *)

Inductive TradeResult : Type :=
| WIN
| LOSS
| PUSH.

Definition TradeResult_eqb (a b : TradeResult) : bool :=
  match a, b with
  | WIN, WIN | LOSS, LOSS | PUSH, PUSH => true
  | _, _ => false
  end.

Record Trade : Type := mkTrade {
  timestamp : string;
  trade_type : string;
  risk_amount : Q;
  result : TradeResult;
  payout : Q;
  balance_after : Q
}.

Definition profit_loss (t : Trade) : Q :=
  match result t with
  | WIN => payout t
  | LOSS => - risk_amount t
  | PUSH => 0
  end.

(** ** The session *)

(** The configuration mapping read by [Session.__init__]: three required keys
    and two keys read with [config.get(key, default)]. *)
Record Config : Type := mkConfig {
  cfg_initial_balance : Q;
  cfg_risk_percent : Q;
  cfg_payout_percent : Q;
  cfg_stop_loss_percent : option Q;
  cfg_max_consecutive_losses : option Z
}.

Record Session : Type := mkSession {
  initial_balance : Q;
  risk_percent : Q;
  payout_percent : Q;
  stop_loss_percent : Q;
  max_consecutive_losses : Z;
  current_balance : Q;
  trades : list Trade;
  start_time : string;
  consecutive_wins : Z;
  consecutive_losses : Z;
  max_balance : Q;
  min_balance : Q
}.

Definition get_default {A : Type} (o : option A) (d : A) : A :=
  match o with
  | Some a => a
  | None => d
  end.

(** [Session.__init__]; [now] is the reading of [datetime.now()]. *)
Definition Session_init (config : Config) (now : string) : Session :=
  {| initial_balance := cfg_initial_balance config;
     risk_percent := cfg_risk_percent config;
     payout_percent := cfg_payout_percent config;
     stop_loss_percent := get_default (cfg_stop_loss_percent config) 20;
     max_consecutive_losses := get_default (cfg_max_consecutive_losses config) 5%Z;
     current_balance := cfg_initial_balance config;
     trades := [];
     start_time := now;
     consecutive_wins := 0;
     consecutive_losses := 0;
     max_balance := cfg_initial_balance config;
     min_balance := cfg_initial_balance config |}.

Definition current_risk_amount (s : Session) : Q :=
  current_balance s * (risk_percent s / 100).

(** [custom_risk if custom_risk else self.current_risk_amount()]: the test is
    Python truthiness, so [None] and a zero number both take the else branch. *)
Definition resolve_risk (s : Session) (custom_risk : option Q) : Q :=
  match custom_risk with
  | Some r => if Qeq_bool r 0 then current_risk_amount s else r
  | None => current_risk_amount s
  end.

(** [Session.add_trade]; [now] is the formatted clock reading stored in the
    trade.  Returns the created trade and the updated session. *)
Definition add_trade (s : Session) (result : TradeResult) (trade_type : string)
    (custom_risk : option Q) (now : string) : Trade * Session :=
  let risk := resolve_risk s custom_risk in
  let '(payout, balance, wins, losses) :=
    match result with
    | WIN =>
        let payout := risk * (payout_percent s / 100) in
        (payout, current_balance s + payout,
         (consecutive_wins s + 1)%Z, 0%Z)
    | LOSS =>
        (0, current_balance s - risk,
         0%Z, (consecutive_losses s + 1)%Z)
    | PUSH =>
        (0, current_balance s, consecutive_wins s, consecutive_losses s)
    end in
  let trade :=
    {| timestamp := now;
       trade_type := trade_type;
       risk_amount := risk;
       result := result;
       payout := payout;
       balance_after := balance |} in
  (trade,
   {| initial_balance := initial_balance s;
      risk_percent := risk_percent s;
      payout_percent := payout_percent s;
      stop_loss_percent := stop_loss_percent s;
      max_consecutive_losses := max_consecutive_losses s;
      current_balance := balance;
      trades := (trades s ++ [trade])%list;
      start_time := start_time s;
      consecutive_wins := wins;
      consecutive_losses := losses;
      max_balance := pymax (max_balance s) balance;
      min_balance := pymin (min_balance s) balance |}).

(** The loop of [_recalculate_streaks] over [reversed(self.trades)], with the
    two counters as loop state; a [break] returns the counters as they are. *)
Fixpoint scan_streaks (ts : list Trade) (wins losses : Z) : Z * Z :=
  match ts with
  | [] => (wins, losses)
  | trade :: rest =>
      match result trade with
      | WIN =>
          if (losses >? 0)%Z then (wins, losses)
          else scan_streaks rest (wins + 1)%Z losses
      | LOSS =>
          if (wins >? 0)%Z then (wins, losses)
          else scan_streaks rest wins (losses + 1)%Z
      | PUSH => (wins, losses)
      end
  end.

Definition set_streaks (s : Session) (wl : Z * Z) : Session :=
  {| initial_balance := initial_balance s;
     risk_percent := risk_percent s;
     payout_percent := payout_percent s;
     stop_loss_percent := stop_loss_percent s;
     max_consecutive_losses := max_consecutive_losses s;
     current_balance := current_balance s;
     trades := trades s;
     start_time := start_time s;
     consecutive_wins := fst wl;
     consecutive_losses := snd wl;
     max_balance := max_balance s;
     min_balance := min_balance s |}.

Definition _recalculate_streaks (s : Session) : Session :=
  set_streaks s (scan_streaks (rev (trades s)) 0%Z 0%Z).

(** [Session.undo_last_trade]: the returned bool and the updated session. *)
Definition undo_last_trade (s : Session) : bool * Session :=
  match trades s with
  | [] => (false, s)
  | _ :: _ =>
      let remaining := removelast (trades s) in
      let balance :=
        match rev remaining with
        | last_trade :: _ => balance_after last_trade
        | [] => initial_balance s
        end in
      (true,
       _recalculate_streaks
         {| initial_balance := initial_balance s;
            risk_percent := risk_percent s;
            payout_percent := payout_percent s;
            stop_loss_percent := stop_loss_percent s;
            max_consecutive_losses := max_consecutive_losses s;
            current_balance := balance;
            trades := remaining;
            start_time := start_time s;
            consecutive_wins := consecutive_wins s;
            consecutive_losses := consecutive_losses s;
            max_balance := max_balance s;
            min_balance := min_balance s |})
  end.

(** ** Statistics *)

(** The dict returned by [Session.stats], one field per key. *)
Record Stats : Type := mkStats {
  total_trades : Z;
  wins : Z;
  losses : Z;
  pushes : Z;
  win_rate : Q;
  total_pl : Q;
  roi_percent : Q;
  expectancy : Q;
  avg_win : Q;
  avg_loss : Q;
  max_drawdown_percent : Q;
  current_streak : Z;
  breakeven_wr : Q
}.

(** [sum(f(t) for t in ts)]. *)
Definition sum_of (f : Trade -> Q) (ts : list Trade) : Q :=
  fold_left (fun acc t => acc + f t) ts 0.

Definition with_result (r : TradeResult) (ts : list Trade) : list Trade :=
  filter (fun t => TradeResult_eqb (result t) r) ts.

(** [sum(...) / len(xs) if xs else 0.0]. *)
Definition mean_of (f : Trade -> Q) (xs : list Trade) : py Q :=
  match xs with
  | [] => Ok 0
  | _ :: _ => pydiv (sum_of f xs) (inject_Z (len xs))
  end.

Definition stats (s : Session) : py Stats :=
  match trades s with
  | [] =>
      Ok {| total_trades := 0;
            wins := 0;
            losses := 0;
            pushes := 0;
            win_rate := 0;
            total_pl := 0;
            roi_percent := 0;
            expectancy := 0;
            avg_win := 0;
            avg_loss := 0;
            max_drawdown_percent := 0;
            current_streak := 0;
            breakeven_wr := 0 |}
  | _ :: _ =>
      let wins := with_result WIN (trades s) in
      let losses := with_result LOSS (trades s) in
      let pushes := with_result PUSH (trades s) in
      let total_trades := len (trades s) in
      let win_count := len wins in
      let loss_count := len losses in
      win_rate <-
        (if (total_trades >? 0)%Z
         then q <- pydiv (inject_Z win_count) (inject_Z total_trades) ;;
              Ok (q * 100)
         else Ok 0) ;;
      let total_pl := current_balance s - initial_balance s in
      r <- pydiv total_pl (initial_balance s) ;;
      let roi_percent := r * 100 in
      avg_win <- mean_of payout wins ;;
      avg_loss <- mean_of risk_amount losses ;;
      let expectancy :=
        (win_rate / 100 * avg_win) - ((100 - win_rate) / 100 * avg_loss) in
      d <- pydiv (initial_balance s - min_balance s) (initial_balance s) ;;
      let max_dd := d * 100 in
      breakeven_wr <- pydiv 100 (1 + payout_percent s / 100) ;;
      let current_streak :=
        if (consecutive_wins s >? 0)%Z then consecutive_wins s
        else (- consecutive_losses s)%Z in
      Ok {| total_trades := total_trades;
            wins := win_count;
            losses := loss_count;
            pushes := len pushes;
            win_rate := win_rate;
            total_pl := total_pl;
            roi_percent := roi_percent;
            expectancy := expectancy;
            avg_win := avg_win;
            avg_loss := avg_loss;
            max_drawdown_percent := max_dd;
            current_streak := current_streak;
            breakeven_wr := breakeven_wr |}
  end.

(** ** Text *)

(** [str.isspace] on the ASCII range: TAB..CR, FS..US and the space. *)
Definition isspace (c : ascii) : bool :=
  let n := nat_of_ascii c in
  ((9 <=? n) && (n <=? 13) || (28 <=? n) && (n <=? 32))%nat.

Fixpoint rev_onto (s acc : string) : string :=
  match s with
  | EmptyString => acc
  | String c rest => rev_onto rest (String c acc)
  end.

Definition rev_string (s : string) : string := rev_onto s EmptyString.

Fixpoint lstrip (s : string) : string :=
  match s with
  | EmptyString => EmptyString
  | String c rest => if isspace c then lstrip rest else s
  end.

Definition rstrip (s : string) : string := rev_string (lstrip (rev_string s)).

(** [s.strip()]. *)
Definition strip (s : string) : string := rstrip (lstrip s).

(** [s.split()]: the maximal runs of non-space characters, in order.  [word]
    holds the run being read, last character first. *)
Fixpoint split_from (s word : string) : list string :=
  match s with
  | EmptyString =>
      match word with
      | EmptyString => []
      | String _ _ => [rev_string word]
      end
  | String c rest =>
      if isspace c then
        match word with
        | EmptyString => split_from rest EmptyString
        | String _ _ => rev_string word :: split_from rest EmptyString
        end
      else split_from rest (String c word)
  end.

Definition split (s : string) : list string := split_from s EmptyString.

(** [needle in hay] for strings. *)
Fixpoint contains (needle hay : string) : bool :=
  String.prefix needle hay ||
  match hay with
  | EmptyString => false
  | String _ rest => contains needle rest
  end.

(** [s[:-1]]. *)
Fixpoint drop_last (s : string) : string :=
  match s with
  | EmptyString => EmptyString
  | String c EmptyString => EmptyString
  | String c rest => String c (drop_last rest)
  end.

(** [ord(c)] and [chr(n)] on the ASCII range. *)
Definition ord (c : ascii) : Z := Z.of_nat (nat_of_ascii c).
Definition chr (n : Z) : string := String (ascii_of_nat (Z.to_nat n)) EmptyString.

(** ** Stop conditions and the command interpreter

    Three library functions of Python are not part of the repository and
    stay parameters: the parser behind [float(text)] ([None] stands for the
    [ValueError] it raises), the [.1f] formatter and [str] on a float. *)

Section Interaction.

Variable float_of_str : string -> option Q.
Variable format_1f : Q -> string.
Variable str_float : Q -> string.

(** [float(text)]. *)
Definition pyfloat (text : string) : py Q :=
  match float_of_str text with
  | Some q => Ok q
  | None => Raise ValueError
  end.

Definition stop_loss_reason (drawdown_percent : Q) : string :=
  "Stop-loss triggered: -" ++ format_1f drawdown_percent ++ "%".

Definition max_losses_reason (n : Z) : string :=
  "Max consecutive losses: " ++ str_int n.

Definition should_stop (s : Session) : py (bool * string) :=
  d <- pydiv (initial_balance s - current_balance s) (initial_balance s) ;;
  let drawdown_percent := d * 100 in
  if Qle_bool (stop_loss_percent s) drawdown_percent then
    Ok (true, stop_loss_reason drawdown_percent)
  else if (consecutive_losses s >=? max_consecutive_losses s)%Z then
    Ok (true, max_losses_reason (consecutive_losses s))
  else Ok (false, "").

(** The fields of [BinOptTUI] other than the curses screen. *)
Record BinOptTUI : Type := mkTUI {
  session : Session;
  scroll_offset : Z;
  status_message : string;
  command_buffer : string;
  mode : string
}.

Definition BinOptTUI_init (config : Config) (now : string) : BinOptTUI :=
  {| session := Session_init config now;
     scroll_offset := 0;
     status_message := "Session Active";
     command_buffer := "";
     mode := "NORMAL" |}.

Definition set_session (t : BinOptTUI) (s : Session) : BinOptTUI :=
  {| session := s;
     scroll_offset := scroll_offset t;
     status_message := status_message t;
     command_buffer := command_buffer t;
     mode := mode t |}.

Definition set_status (t : BinOptTUI) (msg : string) : BinOptTUI :=
  {| session := session t;
     scroll_offset := scroll_offset t;
     status_message := msg;
     command_buffer := command_buffer t;
     mode := mode t |}.

Definition set_risk_percent (s : Session) (v : Q) : Session :=
  {| initial_balance := initial_balance s;
     risk_percent := v;
     payout_percent := payout_percent s;
     stop_loss_percent := stop_loss_percent s;
     max_consecutive_losses := max_consecutive_losses s;
     current_balance := current_balance s;
     trades := trades s;
     start_time := start_time s;
     consecutive_wins := consecutive_wins s;
     consecutive_losses := consecutive_losses s;
     max_balance := max_balance s;
     min_balance := min_balance s |}.

Definition set_payout_percent (s : Session) (v : Q) : Session :=
  {| initial_balance := initial_balance s;
     risk_percent := risk_percent s;
     payout_percent := v;
     stop_loss_percent := stop_loss_percent s;
     max_consecutive_losses := max_consecutive_losses s;
     current_balance := current_balance s;
     trades := trades s;
     start_time := start_time s;
     consecutive_wins := consecutive_wins s;
     consecutive_losses := consecutive_losses s;
     max_balance := max_balance s;
     min_balance := min_balance s |}.

(** The session built by the [reset] command: a new [Session] from a
    mapping that holds only the three balance keys. *)
Definition reset_session (s : Session) (now : string) : Session :=
  Session_init
    {| cfg_initial_balance := initial_balance s;
       cfg_risk_percent := risk_percent s;
       cfg_payout_percent := payout_percent s;
       cfg_stop_loss_percent := None;
       cfg_max_consecutive_losses := None |}
    now.

Definition is_in (x : string) (xs : list string) : bool :=
  existsb (String.eqb x) xs.

(** [BinOptTUI.handle_command]: the returned value ([None] or ["QUIT"]) and
    the updated interface.  [now] is the clock reading a [reset] would take. *)
Definition handle_command (t : BinOptTUI) (cmd : string) (now : string)
    : option string * BinOptTUI :=
  let parts := split (strip cmd) in
  match parts with
  | [] => (None, t)
  | command :: args =>
      if is_in command ["q"; "quit"] then (Some "QUIT", t)
      else if String.eqb command "w" then
        (None, set_status t "Session saved (not implemented yet)")
      else if String.eqb command "wq" then (Some "QUIT", t)
      else if String.eqb command "reset" then
        (None, set_status (set_session t (reset_session (session t) now))
                 "Session reset")
      else if String.eqb command "risk" && (len parts >? 1)%Z then
        match pyfloat (nth 1 parts "") with
        | Ok v =>
            let s := set_risk_percent (session t) v in
            (None, set_status (set_session t s)
                     ("Risk set to " ++ str_float (risk_percent s) ++ "%"))
        | Raise _ => (None, set_status t "Invalid risk value")
        end
      else if String.eqb command "payout" && (len parts >? 1)%Z then
        match pyfloat (nth 1 parts "") with
        | Ok v =>
            let s := set_payout_percent (session t) v in
            (None, set_status (set_session t s)
                     ("Payout set to " ++ str_float (payout_percent s) ++ "%"))
        | Raise _ => (None, set_status t "Invalid payout value")
        end
      else if String.eqb command "help" then
        (None, set_status t
                 "w=win l=loss p=push dd=undo :q=quit :risk N :payout N")
      else (None, set_status t ("Unknown command: " ++ command))
  end.

Definition set_mode_buffer (t : BinOptTUI) (m buf : string) : BinOptTUI :=
  {| session := session t;
     scroll_offset := scroll_offset t;
     status_message := status_message t;
     command_buffer := buf;
     mode := m |}.

Definition set_scroll (t : BinOptTUI) (off : Z) : BinOptTUI :=
  {| session := session t;
     scroll_offset := off;
     status_message := status_message t;
     command_buffer := command_buffer t;
     mode := mode t |}.

Definition KEY_BACKSPACE : Z := 263.

(** The dispatch of one key in [BinOptTUI.run], after the stop check: the
    bool tells whether the loop breaks. *)
Definition handle_key (t : BinOptTUI) (key : Z) (now : string)
    : bool * BinOptTUI :=
  if String.eqb (mode t) "COMMAND" then
    if (key =? 27)%Z then (false, set_mode_buffer t "NORMAL" "")
    else if (key =? 10)%Z then
      let '(res, t1) := handle_command t (command_buffer t) now in
      let t2 := set_mode_buffer t1 "NORMAL" "" in
      match res with
      | Some r => if String.eqb r "QUIT" then (true, t2) else (false, t2)
      | None => (false, t2)
      end
    else if (key =? 127)%Z || (key =? KEY_BACKSPACE)%Z then
      (false, set_mode_buffer t (mode t) (drop_last (command_buffer t)))
    else if (32 <=? key)%Z && (key <=? 126)%Z then
      (false, set_mode_buffer t (mode t) (command_buffer t ++ chr key))
    else (false, t)
  else
    if (key =? ord "w")%Z then
      (false, set_status
                (set_session t (snd (add_trade (session t) WIN "CALL" None now)))
                "WIN logged")
    else if (key =? ord "l")%Z then
      (false, set_status
                (set_session t (snd (add_trade (session t) LOSS "CALL" None now)))
                "LOSS logged")
    else if (key =? ord "p")%Z then
      (false, set_status
                (set_session t (snd (add_trade (session t) PUSH "CALL" None now)))
                "PUSH logged")
    else if (key =? ord "u")%Z then
      let '(ok, s) := undo_last_trade (session t) in
      if ok then (false, set_status (set_session t s) "Last trade undone")
      else (false, set_status (set_session t s) "No trades to undo")
    else if (key =? ord "j")%Z then
      (false, set_scroll t (Z.max 0 (scroll_offset t - 1)))
    else if (key =? ord "k")%Z then
      (false, set_scroll t
                (Z.min (len (trades (session t)) - 1) (scroll_offset t + 1)))
    else if (key =? ord "g")%Z then (false, set_scroll t 0)
    else if (key =? ord "G")%Z then
      (false, set_scroll t (len (trades (session t)) - 1))
    else if (key =? ord ":")%Z then (false, set_mode_buffer t "COMMAND" "")
    else if (key =? ord "q")%Z then (true, t)
    else (false, t).

End Interaction.

(** ** Histories of operations *)

(** The arguments of one [add_trade] call, clock reading included. *)
Record Call : Type := mkCall {
  call_result : TradeResult;
  call_type : string;
  call_risk : option Q;
  call_time : string
}.

Definition record (s : Session) (c : Call) : Session :=
  snd (add_trade s (call_result c) (call_type c) (call_risk c) (call_time c)).

Definition record_all (s : Session) (calls : list Call) : Session :=
  fold_left record calls s.

(** What the interface can do to its session: log a trade, undo, the
    [reset] command, and the [risk] and [payout] commands. *)
Inductive Op : Type :=
| OpRecord (c : Call)
| OpUndo
| OpReset (now : string)
| OpSetRisk (v : Q)
| OpSetPayout (v : Q).

Definition apply_op (s : Session) (op : Op) : Session :=
  match op with
  | OpRecord c => record s c
  | OpUndo => snd (undo_last_trade s)
  | OpReset now => reset_session s now
  | OpSetRisk v => set_risk_percent s v
  | OpSetPayout v => set_payout_percent s v
  end.

Definition run_ops (s : Session) (ops : list Op) : Session :=
  fold_left apply_op ops s.

Definition streaks (s : Session) : Z * Z :=
  (consecutive_wins s, consecutive_losses s).

(** Replaying [add_trade] from a fresh session over a history: one call per
    trade, with the trade's outcome, label and clock reading. *)
Definition replay_record (config : Config) (now : string) (ts : list Trade)
    : Session :=
  record_all (Session_init config now)
    (map (fun t => mkCall (result t) (trade_type t) None (timestamp t)) ts).

(** The effect of one [add_trade] on the two streak counters. *)
Definition streak_step (wl : Z * Z) (r : TradeResult) : Z * Z :=
  match r with
  | WIN => ((fst wl + 1)%Z, 0%Z)
  | LOSS => (0%Z, (snd wl + 1)%Z)
  | PUSH => wl
  end.

(** Length of the run of outcome [r] at the head of [ts]. *)
Fixpoint leading (r : TradeResult) (ts : list Trade) : Z :=
  match ts with
  | [] => 0%Z
  | t :: rest =>
      if TradeResult_eqb (result t) r then (1 + leading r rest)%Z else 0%Z
  end.

Definition not_push (t : Trade) : bool := negb (TradeResult_eqb (result t) PUSH).

(** The balance a history stands at, read off the history listed most
    recent trade first: the snapshot of the last trade, or the initial
    balance when there is none. *)
Definition recent_balance (init : Q) (recent_first : list Trade) : Q :=
  match recent_first with
  | last_trade :: _ => balance_after last_trade
  | [] => init
  end.

Definition snapshot_balance (s : Session) : Q :=
  recent_balance (initial_balance s) (rev (trades s)).

(** Every snapshot is the balance before the trade plus the trade's profit
    or loss; the history is listed most recent trade first. *)
Fixpoint snapshots_chain (init : Q) (recent_first : list Trade) : Prop :=
  match recent_first with
  | [] => True
  | t :: older =>
      balance_after t == recent_balance init older + profit_loss t /\
      snapshots_chain init older
  end.

(** The ledger agrees with its history. *)
Definition ledger_ok (s : Session) : Prop :=
  current_balance s = snapshot_balance s /\
  snapshots_chain (initial_balance s) (rev (trades s)).

(** At most one streak counter is nonzero. *)
Definition streaks_exclusive (s : Session) : Prop :=
  consecutive_wins s = 0%Z \/ consecutive_losses s = 0%Z.

(** ** Concrete inputs *)

(** The configuration [load_config] falls back to. *)
Definition default_config : Config :=
  {| cfg_initial_balance := 2000;
     cfg_risk_percent := 5;
     cfg_payout_percent := 80;
     cfg_stop_loss_percent := Some 20;
     cfg_max_consecutive_losses := Some 5%Z |}.

Definition session0 : Session := Session_init default_config "09:00:00".

Definition call (r : TradeResult) : Call := mkCall r "CALL" None "12:00:00".

(** The default session after a win, and after a win and a loss. *)
Definition session1 : Session := record session0 (call WIN).
Definition session2 : Session := record session1 (call LOSS).

(** The dict [stats] returns for an empty history. *)
Definition zero_stats : Stats :=
  {| total_trades := 0;
     wins := 0;
     losses := 0;
     pushes := 0;
     win_rate := 0;
     total_pl := 0;
     roi_percent := 0;
     expectancy := 0;
     avg_win := 0;
     avg_loss := 0;
     max_drawdown_percent := 0;
     current_streak := 0;
     breakeven_wr := 0 |}.

(** Stand-ins for the three library functions, used to run the model: a
    parser that reads a plain run of ASCII digits and rejects everything
    else, and a printer that shows a rational as a fraction. *)
Definition digit_of (c : ascii) : option Z :=
  let n := nat_of_ascii c in
  if ((48 <=? n) && (n <=? 57))%nat then Some (Z.of_nat (n - 48)) else None.

Fixpoint digits_value (s : string) (acc : Z) : option Z :=
  match s with
  | EmptyString => Some acc
  | String c rest =>
      match digit_of c with
      | Some d => digits_value rest (10 * acc + d)%Z
      | None => None
      end
  end.

Definition float_of_digits (s : string) : option Q :=
  match s with
  | EmptyString => None
  | String _ _ => option_map inject_Z (digits_value s 0%Z)
  end.

Definition show_fraction (q : Q) : string :=
  str_int (Qnum (Qred q)) ++ "/" ++ str_int (Zpos (Qden (Qred q))).

Definition tui0 : BinOptTUI := BinOptTUI_init default_config "09:00:00".

(** ** Further notions used by the properties *)

(** Number of trades of outcome [r] in a history. *)
Definition count_result (r : TradeResult) (ts : list Trade) : Z :=
  len (with_result r ts).

(** Each streak counter lies between zero and the number of trades of its
    outcome in the history. *)
Definition streaks_bounded (s : Session) : Prop :=
  (0 <= consecutive_wins s <= count_result WIN (trades s))%Z /\
  (0 <= consecutive_losses s <= count_result LOSS (trades s))%Z.

(** Two sessions with the same initial balance, balance and history. *)
Definition same_ledger (a b : Session) : Prop :=
  initial_balance a = initial_balance b /\
  current_balance a = current_balance b /\
  trades a = trades b.

(** The value of [sum(...) / len(xs) if xs else 0.0]. *)
Definition mean_value (f : Trade -> Q) (xs : list Trade) : Q :=
  match xs with
  | [] => 0
  | _ :: _ => sum_of f xs / inject_Z (len xs)
  end.

(** The dict [stats] builds on a history that is not empty, when none of
    its divisions raises. *)
Definition stats_value (s : Session) : Stats :=
  let win_rate :=
    inject_Z (count_result WIN (trades s)) / inject_Z (len (trades s)) * 100 in
  let avg_win := mean_value payout (with_result WIN (trades s)) in
  let avg_loss := mean_value risk_amount (with_result LOSS (trades s)) in
  {| total_trades := len (trades s);
     wins := count_result WIN (trades s);
     losses := count_result LOSS (trades s);
     pushes := count_result PUSH (trades s);
     win_rate := win_rate;
     total_pl := current_balance s - initial_balance s;
     roi_percent :=
       (current_balance s - initial_balance s) / initial_balance s * 100;
     expectancy :=
       (win_rate / 100 * avg_win) - ((100 - win_rate) / 100 * avg_loss);
     avg_win := avg_win;
     avg_loss := avg_loss;
     max_drawdown_percent :=
       (initial_balance s - min_balance s) / initial_balance s * 100;
     current_streak :=
       if (consecutive_wins s >? 0)%Z then consecutive_wins s
       else (- consecutive_losses s)%Z;
     breakeven_wr := 100 / (1 + payout_percent s / 100) |}.

(** A string made of whitespace only (the empty string included). *)
Fixpoint all_space (s : string) : bool :=
  match s with
  | EmptyString => true
  | String c rest => isspace c && all_space rest
  end.

(** The verbs [handle_command] knows. *)
Definition known_verbs : list string :=
  ["q"; "quit"; "w"; "wq"; "reset"; "risk"; "payout"; "help"].

(** The key dispatch of [run] over a finite stream of keys, each with the
    clock reading at the time it is handled; the stop check and the drawing
    that [run] does between two keys are left out.  The bool tells whether a
    key broke the loop; keys after that one are not read. *)
Fixpoint press_keys (float_of_str : string -> option Q)
    (str_float : Q -> string) (t : BinOptTUI) (keys : list (Z * string))
    : bool * BinOptTUI :=
  match keys with
  | [] => (false, t)
  | (key, now) :: rest =>
      let '(stop, t') := handle_key float_of_str str_float t key now in
      if stop then (true, t')
      else press_keys float_of_str str_float t' rest
  end.

(** The key codes of the characters of a text. *)
Definition key_codes (text : string) : list Z :=
  map ord (list_ascii_of_string text).

(** Every character of the text is in the range [32..126] that command mode
    appends to its buffer. *)
Definition printable (text : string) : Prop :=
  Forall (fun c => (32 <= ord c <= 126)%Z) (list_ascii_of_string text).

(** What the key dispatch keeps true of the interface. *)
Definition interface_ok (t : BinOptTUI) : Prop :=
  (mode t = "NORMAL" \/ mode t = "COMMAND") /\
  (mode t = "NORMAL" -> command_buffer t = "") /\
  (-1 <= scroll_offset t)%Z.

(** The keys normal mode acts on. *)
Definition normal_keys : list Z :=
  [ord "w"; ord "l"; ord "p"; ord "u"; ord "j"; ord "k"; ord "g"; ord "G";
   ord ":"; ord "q"].

(** ** The rows of the history box *)

(** Clamping of a slice bound, as Python does for [xs[a:]] and [xs[:b]]: a
    negative bound counts from the end, and the result is kept within
    [0..len]. *)
Definition slice_bound (n bound : Z) : nat :=
  Z.to_nat (if (bound <? 0)%Z then Z.max 0 (bound + n) else Z.min bound n).

(** [xs[a:]] and [xs[:b]]. *)
Definition slice_from {A : Type} (xs : list A) (a : Z) : list A :=
  skipn (slice_bound (len xs) a) xs.

Definition slice_to {A : Type} (xs : list A) (b : Z) : list A :=
  firstn (slice_bound (len xs) b) xs.

(** [enumerate(xs)], counting from [i]. *)
Fixpoint enumerate_from {A : Type} (i : Z) (xs : list A) : list (Z * A) :=
  match xs with
  | [] => []
  | x :: rest => (i, x) :: enumerate_from (i + 1)%Z rest
  end.

(** The rows [draw_history] goes through, in drawing order: for each one
    the number it prints in the first column and the trade it shows.
    [history_height] is the height of the box, [max_y - 17]. *)
Definition history_rows (ts : list Trade) (scroll_offset history_height : Z)
    : list (Z * Trade) :=
  let visible_trades :=
    rev (slice_from ts (- scroll_offset - history_height + 3)%Z) in
  map (fun it => ((len ts - fst it - scroll_offset)%Z, snd it))
    (enumerate_from 0 (slice_to visible_trades (history_height - 3)%Z)).

(** ** The ledger in binary64

    The same ledger with the numbers as the program has them: Python floats,
    that is IEEE 754 binary64, here Rocq's primitive floats, whose
    operations round as the hardware does.  [nan], the infinities and the
    two zeros are values like the others.  Every claim whose truth depends
    on how sums and quotients are rounded is settled on this module; the
    theorems about it use equations between floats only where the program
    copies a value or performs the same operation on the same operands.
    The numbers of the configuration are taken as binary64 values. *)

Module Binary64.

Local Open Scope float_scope.

(** [x / y] on floats: [ZeroDivisionError] exactly when the divisor
    compares equal to zero ([0.0] or [-0.0]); a [nan] divisor does not
    raise. *)
Definition pydiv (x y : float) : py float :=
  if y =? 0 then Raise ZeroDivisionError else Ok (x / y).

(** [max(a, b)] is [b if b > a else a], [min(a, b)] is [b if b < a else a]. *)
Definition pymax (a b : float) : float := if a <? b then b else a.
Definition pymin (a b : float) : float := if b <? a then b else a.

Record Trade : Type := mkTrade {
  timestamp : string;
  trade_type : string;
  risk_amount : float;
  result : TradeResult;
  payout : float;
  balance_after : float
}.

Definition profit_loss (t : Trade) : float :=
  match result t with
  | WIN => payout t
  | LOSS => - risk_amount t
  | PUSH => 0
  end.

Record Config : Type := mkConfig {
  cfg_initial_balance : float;
  cfg_risk_percent : float;
  cfg_payout_percent : float;
  cfg_stop_loss_percent : option float;
  cfg_max_consecutive_losses : option Z
}.

Record Session : Type := mkSession {
  initial_balance : float;
  risk_percent : float;
  payout_percent : float;
  stop_loss_percent : float;
  max_consecutive_losses : Z;
  current_balance : float;
  trades : list Trade;
  start_time : string;
  consecutive_wins : Z;
  consecutive_losses : Z;
  max_balance : float;
  min_balance : float
}.

Definition Session_init (config : Config) (now : string) : Session :=
  {| initial_balance := cfg_initial_balance config;
     risk_percent := cfg_risk_percent config;
     payout_percent := cfg_payout_percent config;
     stop_loss_percent := get_default (cfg_stop_loss_percent config) 20;
     max_consecutive_losses :=
       get_default (cfg_max_consecutive_losses config) 5%Z;
     current_balance := cfg_initial_balance config;
     trades := [];
     start_time := now;
     consecutive_wins := 0%Z;
     consecutive_losses := 0%Z;
     max_balance := cfg_initial_balance config;
     min_balance := cfg_initial_balance config |}.

Definition current_risk_amount (s : Session) : float :=
  current_balance s * (risk_percent s / 100).

(** [custom_risk if custom_risk else self.current_risk_amount()]: a float is
    falsy exactly when it compares equal to zero, so [nan] is truthy. *)
Definition resolve_risk (s : Session) (custom_risk : option float) : float :=
  match custom_risk with
  | Some r => if r =? 0 then current_risk_amount s else r
  | None => current_risk_amount s
  end.

Definition add_trade (s : Session) (result : TradeResult) (trade_type : string)
    (custom_risk : option float) (now : string) : Trade * Session :=
  let risk := resolve_risk s custom_risk in
  let '(payout, balance, wins, losses) :=
    match result with
    | WIN =>
        let payout := risk * (payout_percent s / 100) in
        (payout, current_balance s + payout,
         (consecutive_wins s + 1)%Z, 0%Z)
    | LOSS =>
        (0, current_balance s - risk,
         0%Z, (consecutive_losses s + 1)%Z)
    | PUSH =>
        (0, current_balance s, consecutive_wins s, consecutive_losses s)
    end in
  let trade :=
    {| timestamp := now;
       trade_type := trade_type;
       risk_amount := risk;
       result := result;
       payout := payout;
       balance_after := balance |} in
  (trade,
   {| initial_balance := initial_balance s;
      risk_percent := risk_percent s;
      payout_percent := payout_percent s;
      stop_loss_percent := stop_loss_percent s;
      max_consecutive_losses := max_consecutive_losses s;
      current_balance := balance;
      trades := (trades s ++ [trade])%list;
      start_time := start_time s;
      consecutive_wins := wins;
      consecutive_losses := losses;
      max_balance := pymax (max_balance s) balance;
      min_balance := pymin (min_balance s) balance |}).

Fixpoint scan_streaks (ts : list Trade) (wins losses : Z) : Z * Z :=
  match ts with
  | [] => (wins, losses)
  | trade :: rest =>
      match result trade with
      | WIN =>
          if (losses >? 0)%Z then (wins, losses)
          else scan_streaks rest (wins + 1)%Z losses
      | LOSS =>
          if (wins >? 0)%Z then (wins, losses)
          else scan_streaks rest wins (losses + 1)%Z
      | PUSH => (wins, losses)
      end
  end.

Definition _recalculate_streaks (s : Session) : Session :=
  let wl := scan_streaks (rev (trades s)) 0%Z 0%Z in
  {| initial_balance := initial_balance s;
     risk_percent := risk_percent s;
     payout_percent := payout_percent s;
     stop_loss_percent := stop_loss_percent s;
     max_consecutive_losses := max_consecutive_losses s;
     current_balance := current_balance s;
     trades := trades s;
     start_time := start_time s;
     consecutive_wins := fst wl;
     consecutive_losses := snd wl;
     max_balance := max_balance s;
     min_balance := min_balance s |}.

Definition undo_last_trade (s : Session) : bool * Session :=
  match trades s with
  | [] => (false, s)
  | _ :: _ =>
      let remaining := removelast (trades s) in
      let balance :=
        match rev remaining with
        | last_trade :: _ => balance_after last_trade
        | [] => initial_balance s
        end in
      (true,
       _recalculate_streaks
         {| initial_balance := initial_balance s;
            risk_percent := risk_percent s;
            payout_percent := payout_percent s;
            stop_loss_percent := stop_loss_percent s;
            max_consecutive_losses := max_consecutive_losses s;
            current_balance := balance;
            trades := remaining;
            start_time := start_time s;
            consecutive_wins := consecutive_wins s;
            consecutive_losses := consecutive_losses s;
            max_balance := max_balance s;
            min_balance := min_balance s |})
  end.

Definition stop_loss_reason (format_1f : float -> string)
    (drawdown_percent : float) : string :=
  ("Stop-loss triggered: -" ++ format_1f drawdown_percent ++ "%")%string.

Definition max_losses_reason (n : Z) : string :=
  ("Max consecutive losses: " ++ str_int n)%string.

(** [Session.should_stop]; [format_1f] stands for the [.1f] formatter.
    [drawdown_percent >= self.stop_loss_percent] is the float comparison,
    false when either side is [nan]. *)
Definition should_stop (format_1f : float -> string) (s : Session)
    : py (bool * string) :=
  d <- pydiv (initial_balance s - current_balance s) (initial_balance s) ;;
  let drawdown_percent := d * 100 in
  if stop_loss_percent s <=? drawdown_percent then
    Ok (true, stop_loss_reason format_1f drawdown_percent)
  else if (consecutive_losses s >=? max_consecutive_losses s)%Z then
    Ok (true, max_losses_reason (consecutive_losses s))
  else Ok (false, ""%string).

Definition set_risk_percent (s : Session) (v : float) : Session :=
  {| initial_balance := initial_balance s;
     risk_percent := v;
     payout_percent := payout_percent s;
     stop_loss_percent := stop_loss_percent s;
     max_consecutive_losses := max_consecutive_losses s;
     current_balance := current_balance s;
     trades := trades s;
     start_time := start_time s;
     consecutive_wins := consecutive_wins s;
     consecutive_losses := consecutive_losses s;
     max_balance := max_balance s;
     min_balance := min_balance s |}.

Definition set_payout_percent (s : Session) (v : float) : Session :=
  {| initial_balance := initial_balance s;
     risk_percent := risk_percent s;
     payout_percent := v;
     stop_loss_percent := stop_loss_percent s;
     max_consecutive_losses := max_consecutive_losses s;
     current_balance := current_balance s;
     trades := trades s;
     start_time := start_time s;
     consecutive_wins := consecutive_wins s;
     consecutive_losses := consecutive_losses s;
     max_balance := max_balance s;
     min_balance := min_balance s |}.

Definition reset_session (s : Session) (now : string) : Session :=
  Session_init
    {| cfg_initial_balance := initial_balance s;
       cfg_risk_percent := risk_percent s;
       cfg_payout_percent := payout_percent s;
       cfg_stop_loss_percent := None;
       cfg_max_consecutive_losses := None |}
    now.

(** *** Histories of operations *)

Record Call : Type := mkCall {
  call_result : TradeResult;
  call_type : string;
  call_risk : option float;
  call_time : string
}.

Definition record (s : Session) (c : Call) : Session :=
  snd (add_trade s (call_result c) (call_type c) (call_risk c) (call_time c)).

Definition record_all (s : Session) (calls : list Call) : Session :=
  fold_left record calls s.

(** The setting commands carry whatever [float()] returned, [nan] and the
    infinities included. *)
Inductive Op : Type :=
| OpRecord (c : Call)
| OpUndo
| OpReset (now : string)
| OpSetRisk (v : float)
| OpSetPayout (v : float).

Definition apply_op (s : Session) (op : Op) : Session :=
  match op with
  | OpRecord c => record s c
  | OpUndo => snd (undo_last_trade s)
  | OpReset now => reset_session s now
  | OpSetRisk v => set_risk_percent s v
  | OpSetPayout v => set_payout_percent s v
  end.

Definition run_ops (s : Session) (ops : list Op) : Session :=
  fold_left apply_op ops s.

(** *** Replaying a history *)

(** [sum(t.profit_loss() for t in ts)]: a left fold from zero. *)
Definition sum_profit_loss (ts : list Trade) : float :=
  fold_left (fun acc t => acc + profit_loss t) ts 0.

(** One trade applied to a balance, with the operation [add_trade] uses
    for its outcome: a win adds the payout, a loss subtracts the risk
    amount, a push leaves the balance. *)
Definition settle (balance : float) (t : Trade) : float :=
  match result t with
  | WIN => balance + payout t
  | LOSS => balance - risk_amount t
  | PUSH => balance
  end.

(** The history applied to the initial balance, trade by trade in order. *)
Definition replay_balance (init : float) (ts : list Trade) : float :=
  fold_left settle ts init.

Definition recent_balance (init : float) (recent_first : list Trade) : float :=
  match recent_first with
  | last_trade :: _ => balance_after last_trade
  | [] => init
  end.

Definition snapshot_balance (s : Session) : float :=
  recent_balance (initial_balance s) (rev (trades s)).

(** Every snapshot is the balance before the trade with the trade settled
    on it; the history is listed most recent trade first. *)
Fixpoint snapshots_chain (init : float) (recent_first : list Trade) : Prop :=
  match recent_first with
  | [] => True
  | t :: older =>
      balance_after t = settle (recent_balance init older) t /\
      snapshots_chain init older
  end.

Definition ledger_ok (s : Session) : Prop :=
  current_balance s = snapshot_balance s /\
  snapshots_chain (initial_balance s) (rev (trades s)).

(** *** Concrete inputs *)

Definition default_config : Config :=
  {| cfg_initial_balance := 2000;
     cfg_risk_percent := 5;
     cfg_payout_percent := 80;
     cfg_stop_loss_percent := Some 20;
     cfg_max_consecutive_losses := Some 5%Z |}.

Definition session0 : Session := Session_init default_config "09:00:00".

Definition call (r : TradeResult) : Call := mkCall r "CALL" None "12:00:00".

(** The default session after three wins. *)
Definition three_wins : Session :=
  record_all session0 [call WIN; call WIN; call WIN].



(** A stand-in for the [.1f] formatter, used to run [should_stop]. *)
Definition no_digits (x : float) : string := "#"%string.

End Binary64.

(** * Properties *)

(** ** The scenarios of the specification *)

Example scenario_risk_amount : current_risk_amount session0 == 100.
Proof. reflexivity. Qed.

Example scenario_win :
  payout (fst (add_trade session0 WIN "CALL" None "12:00:00")) == 80 /\
  current_balance session1 == 2080 /\
  streaks session1 = (1%Z, 0%Z).
Proof. repeat split; reflexivity. Qed.

Example scenario_loss :
  risk_amount (fst (add_trade session1 LOSS "CALL" None "12:00:00")) == 104 /\
  current_balance session2 == 1976 /\
  streaks session2 = (0%Z, 1%Z).
Proof. repeat split; reflexivity. Qed.

Example scenario_undo :
  let s := snd (undo_last_trade session2) in
  current_balance s == 2080 /\ streaks s = (1%Z, 0%Z) /\
  List.length (trades s) = 1%nat.
Proof. repeat split; reflexivity. Qed.

(** ** Statistics of an empty history *)

(** C1 (amended): when the trade history is empty, [stats] returns a dict in
    which every field is zero, [breakeven_wr] included: the break-even rate
    it reports is [0], not the value [100 / (1 + payout_percent / 100)] of
    the payout setting. *)
Theorem stats_empty_history :
  forall s : Session,
    trades s = [] ->
    exists st : Stats,
      stats s = Ok st /\
      total_trades st = 0%Z /\ wins st = 0%Z /\ losses st = 0%Z /\
      pushes st = 0%Z /\ win_rate st = 0 /\ total_pl st = 0 /\
      roi_percent st = 0 /\ expectancy st = 0 /\ avg_win st = 0 /\
      avg_loss st = 0 /\ max_drawdown_percent st = 0 /\
      current_streak st = 0%Z /\ breakeven_wr st = 0.
Proof.
  intros s Hempty. exists zero_stats. unfold stats. rewrite Hempty.
  repeat split.
Qed.

Lemma stats_empty_history_witness :
  trades session0 = [] /\
  exists st : Stats, stats session0 = Ok st /\ breakeven_wr st = 0.
Proof.
  split; [reflexivity |].
  destruct (stats_empty_history session0 eq_refl)
    as (st & Hst & _ & _ & _ & _ & _ & _ & _ & _ & _ & _ & _ & _ & Hb).
  exists st. split; [exact Hst | exact Hb].
Defined.

(** C1 as stated fails on the default session: its history is empty, and the
    [breakeven_wr] that [stats] returns is not [100 / (1 + 80/100)]. *)
Lemma stats_empty_breakeven_not_from_payout :
  trades session0 = [] /\
  exists st : Stats,
    stats session0 = Ok st /\
    ~ breakeven_wr st == 100 / (1 + payout_percent session0 / 100).
Proof.
  split; [reflexivity |].
  exists zero_stats. split; [reflexivity |].
  intro H. vm_compute in H. discriminate H.
Qed.

(** On a history that is not empty the break-even rate is the formula over
    the current payout setting, whenever [stats] returns at all. *)
Lemma stats_breakeven_nonempty :
  forall (s : Session) (st : Stats),
    trades s <> [] -> stats s = Ok st ->
    breakeven_wr st = 100 / (1 + payout_percent s / 100).
Proof.
  intros s st Hne Hst. unfold stats in Hst.
  destruct (trades s) as [| t ts]; [contradiction |].
  repeat match type of Hst with
         | bind ?m _ = Ok _ =>
             let E := fresh "E" in destruct m eqn:E; simpl in Hst;
             [| discriminate Hst]
         end.
  injection Hst as <-. simpl.
  unfold pydiv in *.
  destruct (Qeq_bool (1 + payout_percent s / 100) 0); [discriminate |].
  congruence.
Qed.

(** ** The risk of a trade *)

Lemma add_trade_risk_amount :
  forall s r ty custom now,
    risk_amount (fst (add_trade s r ty custom now)) = resolve_risk s custom.
Proof. intros s [] ty custom now; reflexivity. Qed.

Lemma resolve_risk_override :
  forall s r, ~ r == 0 -> resolve_risk s (Some r) = r.
Proof.
  intros s r Hr. unfold resolve_risk.
  destruct (Qeq_bool r 0) eqn:E; [| reflexivity].
  apply Qeq_bool_eq in E. contradiction.
Qed.

Lemma resolve_risk_default :
  forall s, resolve_risk s None = current_balance s * (risk_percent s / 100).
Proof. reflexivity. Qed.

(** ** Streak counters *)

Lemma record_streaks :
  forall s c, streaks (record s c) = streak_step (streaks s) (call_result c).
Proof. intros s [[] ty risk now]; reflexivity. Qed.

Lemma record_all_streaks :
  forall calls s,
    streaks (record_all s calls) =
    fold_left streak_step (map call_result calls) (streaks s).
Proof.
  unfold record_all.
  induction calls as [| c calls IH]; intro s; cbn [fold_left map];
    [reflexivity |].
  rewrite IH, record_streaks. reflexivity.
Qed.

Lemma replay_record_streaks :
  forall config now ts,
    streaks (replay_record config now ts) =
    fold_left streak_step (map result ts) (0%Z, 0%Z).
Proof.
  intros config now ts. unfold replay_record.
  rewrite record_all_streaks, map_map. reflexivity.
Qed.

Lemma leading_nonneg : forall r ts, (0 <= leading r ts)%Z.
Proof.
  induction ts as [| t ts IH]; cbn [leading]; [lia |].
  destruct (TradeResult_eqb (result t) r); lia.
Qed.

(** Once a win has been counted the scan can only count further wins. *)
Lemma scan_streaks_wins :
  forall ts w, (0 < w)%Z ->
    scan_streaks ts w 0 = ((w + leading WIN ts)%Z, 0%Z).
Proof.
  induction ts as [| t ts IH]; intros w Hw;
    cbn [scan_streaks leading TradeResult_eqb].
  - f_equal; lia.
  - destruct (result t); cbn [TradeResult_eqb].
    + change (0 >? 0)%Z with false. cbv iota.
      rewrite IH by lia. f_equal; lia.
    + destruct (w >? 0)%Z eqn:E; [f_equal; lia | lia].
    + f_equal; lia.
Qed.

Lemma scan_streaks_losses :
  forall ts l, (0 < l)%Z ->
    scan_streaks ts 0 l = (0%Z, (l + leading LOSS ts)%Z).
Proof.
  induction ts as [| t ts IH]; intros l Hl;
    cbn [scan_streaks leading TradeResult_eqb].
  - f_equal; lia.
  - destruct (result t); cbn [TradeResult_eqb].
    + destruct (l >? 0)%Z eqn:E; [f_equal; lia | lia].
    + change (0 >? 0)%Z with false. cbv iota.
      rewrite IH by lia. f_equal; lia.
    + f_equal; lia.
Qed.

(** The backward scan returns the lengths of the win run and of the loss run
    at the recent end of the history; a push there makes both zero. *)
Lemma scan_streaks_leading :
  forall ts, scan_streaks ts 0 0 = (leading WIN ts, leading LOSS ts).
Proof.
  intros [| t ts]; cbn [scan_streaks leading]; [reflexivity |].
  destruct (result t); cbn [TradeResult_eqb];
    change (0 >? 0)%Z with false; cbv iota.
  - rewrite scan_streaks_wins by lia. reflexivity.
  - rewrite scan_streaks_losses by lia. reflexivity.
  - reflexivity.
Qed.

(** The scan reads nothing of a trade but its outcome. *)
Lemma scan_streaks_results_only :
  forall ts1 ts2 w l,
    map result ts1 = map result ts2 ->
    scan_streaks ts1 w l = scan_streaks ts2 w l.
Proof.
  induction ts1 as [| t1 ts1 IH]; intros [| t2 ts2] w l H;
    simpl in *; try discriminate; [reflexivity |].
  injection H as Hr Hrest. rewrite Hr.
  destruct (result t2); try reflexivity;
    [destruct (l >? 0)%Z | destruct (w >? 0)%Z]; auto.
Qed.

(** Replaying [add_trade] skips pushes: its counters are the runs at the
    recent end of the history with the pushes taken out. *)
Lemma replay_streaks_leading :
  forall ts,
    fold_left streak_step (map result (rev ts)) (0%Z, 0%Z) =
    (leading WIN (filter not_push ts), leading LOSS (filter not_push ts)).
Proof.
  induction ts as [| t ts IH]; cbn [rev filter]; [reflexivity |].
  rewrite map_app, fold_left_app, IH. cbn [map fold_left].
  assert (Hnp : not_push t = negb (TradeResult_eqb (result t) PUSH))
    by reflexivity.
  destruct (result t) eqn:E; rewrite Hnp; cbn [TradeResult_eqb negb leading];
    try rewrite E; cbn [TradeResult_eqb streak_step fst snd];
    try reflexivity; f_equal; lia.
Qed.

Lemma filter_not_push_id :
  forall ts, forallb not_push ts = true -> filter not_push ts = ts.
Proof.
  induction ts as [| t ts IH]; simpl; [reflexivity |].
  intro H. apply andb_prop in H as [Ht Hts].
  rewrite Ht, IH by assumption. reflexivity.
Qed.

(** On a history without pushes the backward scan and the replay agree. *)
Lemma scan_streaks_replay_no_push :
  forall config now ts,
    forallb not_push ts = true ->
    scan_streaks (rev ts) 0 0 = streaks (replay_record config now ts).
Proof.
  intros config now ts Hts.
  rewrite replay_record_streaks, scan_streaks_leading.
  rewrite <- (rev_involutive ts) at 3.
  rewrite replay_streaks_leading, filter_not_push_id; [reflexivity |].
  rewrite forallb_forall in *. intros t Ht. apply Hts.
  apply in_rev. exact Ht.
Qed.

(** ** Undo *)

Lemma undo_last_trade_empty :
  forall s, trades s = [] -> undo_last_trade s = (false, s).
Proof. intros s H. unfold undo_last_trade. rewrite H. reflexivity. Qed.

(** What [undo_last_trade] does to a history [ts ++ [t]], field by field. *)
Lemma undo_last_trade_app :
  forall s ts t,
    trades s = (ts ++ [t])%list ->
    let s' := snd (undo_last_trade s) in
    fst (undo_last_trade s) = true /\
    trades s' = ts /\
    current_balance s' =
      match rev ts with
      | last_trade :: _ => balance_after last_trade
      | [] => initial_balance s
      end /\
    streaks s' = scan_streaks (rev ts) 0 0 /\
    initial_balance s' = initial_balance s /\
    risk_percent s' = risk_percent s /\
    payout_percent s' = payout_percent s /\
    stop_loss_percent s' = stop_loss_percent s /\
    max_consecutive_losses s' = max_consecutive_losses s /\
    start_time s' = start_time s /\
    max_balance s' = max_balance s /\
    min_balance s' = min_balance s.
Proof.
  intros s ts t H. unfold undo_last_trade. rewrite H.
  destruct (ts ++ [t])%list as [| x xs] eqn:E.
  - destruct ts; discriminate E.
  - rewrite <- E, removelast_last.
    unfold _recalculate_streaks, set_streaks, streaks. cbn.
    repeat split; try reflexivity.
    symmetry. apply surjective_pairing.
Qed.

Lemma history_empty_dec :
  forall s : Session, {trades s = []} + {trades s <> []}.
Proof.
  intro s. destruct (trades s); [left; reflexivity | right; discriminate].
Qed.

Lemma nonempty_snoc :
  forall (A : Type) (xs : list A),
    xs <> [] -> exists ys y, xs = (ys ++ [y])%list.
Proof.
  intros A xs H. destruct (exists_last H) as (ys & y & ->). eauto.
Qed.

(** C2: the code at a history where undo and replay part.  After WIN, PUSH,
    LOSS and an undo the surviving history is WIN, PUSH; the backward scan
    stops at the push and leaves both counters at zero, while replaying
    [add_trade] over the same two trades counts one win. *)
Theorem undo_streaks_differ_from_replay_after_push :
  let s := run_ops session0
             [OpRecord (call WIN); OpRecord (call PUSH);
              OpRecord (call LOSS); OpUndo] in
  map result (trades s) = [WIN; PUSH] /\
  streaks (record_all session0 [call WIN; call PUSH]) = (1%Z, 0%Z) /\
  streaks s = (0%Z, 0%Z) /\
  streaks (replay_record default_config "09:00:00" (trades s)) = (1%Z, 0%Z).
Proof. vm_compute. repeat split; reflexivity. Qed.

(** After an undo the counters are a function of the outcomes that survive:
    the runs of wins and of losses at the recent end of the history. *)
Lemma undo_streaks_from_history :
  forall s, trades s <> [] ->
    let s' := snd (undo_last_trade s) in
    streaks s' = (leading WIN (rev (trades s')), leading LOSS (rev (trades s'))).
Proof.
  intros s Hne.
  destruct (nonempty_snoc _ _ Hne) as (ts & t & Hts).
  destruct (undo_last_trade_app s ts t Hts) as (_ & Htr & _ & Hst & _).
  cbv zeta. rewrite Htr, Hst. apply scan_streaks_leading.
Qed.

(** With no push in the surviving history, undo leaves the counters that a
    replay of [add_trade] over that history produces. *)
Lemma undo_streaks_replay_no_push :
  forall s config now, trades s <> [] ->
    let s' := snd (undo_last_trade s) in
    forallb not_push (trades s') = true ->
    streaks s' = streaks (replay_record config now (trades s')).
Proof.
  intros s config now Hne.
  destruct (nonempty_snoc _ _ Hne) as (ts & t & Hts).
  destruct (undo_last_trade_app s ts t Hts) as (_ & Htr & _ & Hst & _).
  cbv zeta. rewrite Htr, Hst. apply scan_streaks_replay_no_push.
Qed.

(** C7: on an empty history [undo_last_trade] returns [False] and the
    session it was given; on a history [ts ++ [t]] it returns [True], the
    history becomes [ts], and the balance becomes the [balance_after] of the
    last trade of [ts], or the initial balance when [ts] is empty. *)
Theorem undo_last_trade_spec :
  forall s : Session,
    (trades s = [] -> undo_last_trade s = (false, s)) /\
    (forall ts t, trades s = (ts ++ [t])%list ->
       let s' := snd (undo_last_trade s) in
       fst (undo_last_trade s) = true /\
       trades s' = ts /\
       (ts = [] -> current_balance s' = initial_balance s) /\
       (forall ts0 u, ts = (ts0 ++ [u])%list ->
          current_balance s' = balance_after u)).
Proof.
  intro s. split; [apply undo_last_trade_empty |].
  intros ts t Hts.
  destruct (undo_last_trade_app s ts t Hts) as (Hok & Htr & Hbal & _).
  cbv zeta. repeat split; try assumption.
  - intros ->. exact Hbal.
  - intros ts0 u ->. rewrite Hbal, rev_unit. reflexivity.
Qed.

Lemma undo_last_trade_spec_witness :
  undo_last_trade session0 = (false, session0) /\
  fst (undo_last_trade session2) = true /\
  trades (snd (undo_last_trade session2)) = trades session1 /\
  current_balance (snd (undo_last_trade session2)) = current_balance session1.
Proof.
  split.
  - apply (proj1 (undo_last_trade_spec session0)). reflexivity.
  - pose proof (proj2 (undo_last_trade_spec session2) (trades session1)
                  (fst (add_trade session1 LOSS "CALL" None "12:00:00"))
                  eq_refl) as (Hok & Htr & _ & Hbal).
    split; [exact Hok | split; [exact Htr |]].
    apply (Hbal [] (fst (add_trade session0 WIN "CALL" None "12:00:00"))).
    reflexivity.
Defined.

(** ** Invariants of the reachable sessions *)

Lemma record_trades :
  forall s c,
    trades (record s c) =
    (trades s ++
     [fst (add_trade s (call_result c) (call_type c) (call_risk c)
             (call_time c))])%list.
Proof. intros s [[] ty risk now]; reflexivity. Qed.

Lemma record_balance_after :
  forall s c,
    balance_after
      (fst (add_trade s (call_result c) (call_type c) (call_risk c)
              (call_time c))) = current_balance (record s c).
Proof. intros s [[] ty risk now]; reflexivity. Qed.

Lemma record_profit_loss :
  forall s c,
    current_balance (record s c) ==
    current_balance s +
    profit_loss
      (fst (add_trade s (call_result c) (call_type c) (call_risk c)
              (call_time c))).
Proof.
  intros s [[] ty risk now]; unfold record, profit_loss; cbn; lra.
Qed.

Lemma record_initial_balance :
  forall s c, initial_balance (record s c) = initial_balance s.
Proof. intros s [[] ty risk now]; reflexivity. Qed.

Lemma leading_exclusive :
  forall ts, leading WIN ts = 0%Z \/ leading LOSS ts = 0%Z.
Proof.
  intros [| t ts]; cbn [leading]; [left; reflexivity |].
  destruct (result t); cbn [TradeResult_eqb]; auto.
Qed.

Lemma Session_init_ledger_ok :
  forall config now, ledger_ok (Session_init config now).
Proof. intros config now. split; [reflexivity | exact I]. Qed.

Lemma record_ledger_ok :
  forall s c, ledger_ok s -> ledger_ok (record s c).
Proof.
  intros s c [Hbal Hchain]. unfold ledger_ok, snapshot_balance.
  rewrite record_trades, rev_unit, record_initial_balance.
  cbn [recent_balance snapshots_chain].
  rewrite record_balance_after. split; [reflexivity |].
  split; [| exact Hchain].
  fold (snapshot_balance s). rewrite <- Hbal. apply record_profit_loss.
Qed.

Lemma undo_ledger_ok :
  forall s, ledger_ok s -> ledger_ok (snd (undo_last_trade s)).
Proof.
  intros s [Hbal Hchain].
  destruct (history_empty_dec s) as [E | Hne].
  - rewrite undo_last_trade_empty by exact E. split; assumption.
  - destruct (nonempty_snoc _ _ Hne) as (ts & t & Hts).
    destruct (undo_last_trade_app s ts t Hts)
      as (_ & Htr & Hcur & _ & Hinit & _).
    unfold ledger_ok, snapshot_balance. rewrite Htr, Hinit, Hcur.
    split; [reflexivity |].
    rewrite Hts, rev_unit in Hchain. apply Hchain.
Qed.

Lemma apply_op_ledger_ok :
  forall s op, ledger_ok s -> ledger_ok (apply_op s op).
Proof.
  intros s [c | | now | v | v] H; cbn [apply_op].
  - apply record_ledger_ok, H.
  - apply undo_ledger_ok, H.
  - apply Session_init_ledger_ok.
  - exact H.
  - exact H.
Qed.

Lemma run_ops_ledger_ok :
  forall ops s, ledger_ok s -> ledger_ok (run_ops s ops).
Proof.
  unfold run_ops.
  induction ops as [| op ops IH]; intros s H; cbn [fold_left];
    [exact H | apply IH, apply_op_ledger_ok, H].
Qed.

Lemma record_streaks_exclusive :
  forall s c, streaks_exclusive s -> streaks_exclusive (record s c).
Proof.
  intros s [[] ty risk now] H; unfold streaks_exclusive; cbn; auto.
Qed.

Lemma undo_streaks_exclusive :
  forall s, streaks_exclusive s -> streaks_exclusive (snd (undo_last_trade s)).
Proof.
  intros s H. destruct (history_empty_dec s) as [E | Hne].
  - rewrite undo_last_trade_empty by exact E. exact H.
  - pose proof (undo_streaks_from_history s Hne) as Hst. cbv zeta in Hst.
    unfold streaks in Hst. injection Hst as Hw Hl.
    unfold streaks_exclusive. rewrite Hw, Hl. apply leading_exclusive.
Qed.

Lemma apply_op_streaks_exclusive :
  forall s op, streaks_exclusive s -> streaks_exclusive (apply_op s op).
Proof.
  intros s [c | | now | v | v] H; cbn [apply_op].
  - apply record_streaks_exclusive, H.
  - apply undo_streaks_exclusive, H.
  - left; reflexivity.
  - exact H.
  - exact H.
Qed.

(** C8: in every session reached from a fresh one by recording trades,
    undoing, resetting and changing the risk or payout setting, at most one
    of [consecutive_wins] and [consecutive_losses] is nonzero. *)
Theorem streaks_never_both_nonzero :
  forall (config : Config) (now : string) (ops : list Op),
    let s := run_ops (Session_init config now) ops in
    consecutive_wins s = 0%Z \/ consecutive_losses s = 0%Z.
Proof.
  intros config now ops. cbv zeta.
  change (streaks_exclusive (run_ops (Session_init config now) ops)).
  assert (H0 : streaks_exclusive (Session_init config now))
    by (left; reflexivity).
  revert H0. generalize (Session_init config now). unfold run_ops.
  induction ops as [| op ops IH]; intros s H; cbn [fold_left];
    [exact H | apply IH, apply_op_streaks_exclusive, H].
Qed.

(** ** Sequences of calls *)

Lemma record_all_run_ops :
  forall calls s, record_all s calls = run_ops s (map OpRecord calls).
Proof.
  unfold record_all, run_ops.
  induction calls as [| c calls IH]; intro s; cbn [fold_left map];
    [reflexivity | apply IH].
Qed.

(** ** Record followed by undo *)

Lemma record_then_undo_restores :
  forall s c,
    current_balance s = snapshot_balance s ->
    let s' := snd (undo_last_trade (record s c)) in
    fst (undo_last_trade (record s c)) = true /\
    current_balance s' = current_balance s /\
    trades s' = trades s /\
    max_balance s' = max_balance (record s c) /\
    min_balance s' = min_balance (record s c).
Proof.
  intros s c Hbal.
  destruct (undo_last_trade_app (record s c) (trades s) _ (record_trades s c))
    as (Hok & Htr & Hcur & _ & _ & _ & _ & _ & _ & _ & Hmax & Hmin).
  cbv zeta. rewrite record_initial_balance in Hcur.
  repeat split; try assumption.
  rewrite Hcur, Hbal. reflexivity.
Qed.

(** C6: in every session reached from a fresh one, [add_trade] followed by
    [undo_last_trade] succeeds and brings back the balance and the history
    (so also its length) of before the [add_trade]; [max_balance] and
    [min_balance] keep what the [add_trade] made them, and there are
    sessions where that is not their earlier value. *)
Theorem record_then_undo :
  (forall (config : Config) (now : string) (ops : list Op) (c : Call),
     let s := run_ops (Session_init config now) ops in
     let s' := snd (undo_last_trade (record s c)) in
     fst (undo_last_trade (record s c)) = true /\
     current_balance s' = current_balance s /\
     trades s' = trades s /\
     List.length (trades s') = List.length (trades s) /\
     max_balance s' = max_balance (record s c) /\
     min_balance s' = min_balance (record s c)) /\
  (exists (s : Session) (c : Call),
     s = run_ops session0 [] /\
     ~ max_balance (snd (undo_last_trade (record s c))) == max_balance s) /\
  (exists (s : Session) (c : Call),
     s = run_ops session0 [] /\
     ~ min_balance (snd (undo_last_trade (record s c))) == min_balance s).
Proof.
  split; [| split].
  - intros config now ops c. cbv zeta.
    assert (Hbal : ledger_ok (run_ops (Session_init config now) ops))
      by apply run_ops_ledger_ok, Session_init_ledger_ok.
    destruct (record_then_undo_restores _ c (proj1 Hbal))
      as (Hok & Hcur & Htr & Hmax & Hmin).
    repeat split; try assumption. rewrite Htr. reflexivity.
  - exists session0, (call WIN). split; [reflexivity |].
    intro H. vm_compute in H. discriminate H.
  - exists session0, (call LOSS). split; [reflexivity |].
    intro H. vm_compute in H. discriminate H.
Qed.

(** ** Stop conditions *)

Lemma should_stop_zero_initial_balance :
  forall format_1f s,
    initial_balance s == 0 -> should_stop format_1f s = Raise ZeroDivisionError.
Proof.
  intros format_1f s H. unfold should_stop, pydiv.
  apply Qeq_bool_iff in H. rewrite H. reflexivity.
Qed.

(** With a nonzero initial balance the division goes through and the two
    tests decide. *)
Lemma should_stop_nonzero :
  forall format_1f s,
    ~ initial_balance s == 0 ->
    should_stop format_1f s =
    let drawdown :=
      (initial_balance s - current_balance s) / initial_balance s * 100 in
    if Qle_bool (stop_loss_percent s) drawdown then
      Ok (true, stop_loss_reason format_1f drawdown)
    else if (consecutive_losses s >=? max_consecutive_losses s)%Z then
      Ok (true, max_losses_reason (consecutive_losses s))
    else Ok (false, "").
Proof.
  intros format_1f s Hinit. unfold should_stop, pydiv.
  destruct (Qeq_bool (initial_balance s) 0) eqn:Ez;
    [apply Qeq_bool_iff in Ez; contradiction | reflexivity].
Qed.

(** ** Commands *)

Lemma len_two_or_more :
  forall (A : Type) (x y : A) (rest : list A),
    (len (x :: y :: rest) >? 1)%Z = true.
Proof.
  intros A x y rest. unfold len. cbn [List.length].
  apply Z.gtb_lt. lia.
Qed.

Lemma handle_command_risk_arg :
  forall float_of_str str_float t cmd now arg rest,
    split (strip cmd) = "risk" :: arg :: rest ->
    handle_command float_of_str str_float t cmd now =
    match pyfloat float_of_str arg with
    | Ok v =>
        (None,
         set_status (set_session t (set_risk_percent (session t) v))
           ("Risk set to " ++ str_float v ++ "%"))
    | Raise _ => (None, set_status t "Invalid risk value")
    end.
Proof.
  intros float_of_str str_float t cmd now arg rest Hparts.
  unfold handle_command. rewrite Hparts, len_two_or_more. reflexivity.
Qed.

Lemma handle_command_payout_arg :
  forall float_of_str str_float t cmd now arg rest,
    split (strip cmd) = "payout" :: arg :: rest ->
    handle_command float_of_str str_float t cmd now =
    match pyfloat float_of_str arg with
    | Ok v =>
        (None,
         set_status (set_session t (set_payout_percent (session t) v))
           ("Payout set to " ++ str_float v ++ "%"))
    | Raise _ => (None, set_status t "Invalid payout value")
    end.
Proof.
  intros float_of_str str_float t cmd now arg rest Hparts.
  unfold handle_command. rewrite Hparts, len_two_or_more. reflexivity.
Qed.

(** Enter in command mode runs the buffer and goes back to normal mode; the
    loop breaks only on ["QUIT"]. *)
Lemma handle_key_enter_continues :
  forall float_of_str str_float t now t',
    mode t = "COMMAND" ->
    handle_command float_of_str str_float t (command_buffer t) now =
      (None, t') ->
    handle_key float_of_str str_float t 10 now =
      (false, set_mode_buffer t' "NORMAL" "").
Proof.
  intros float_of_str str_float t now t' Hmode Hcmd.
  unfold handle_key. rewrite Hmode, Hcmd. reflexivity.
Qed.

(** C9: a command whose first token is [risk] or [payout] and whose second
    token the float parser rejects returns no quit signal, leaves the session
    (so [risk_percent] and [payout_percent]) as it was, and sets the status
    message to "Invalid risk value" or "Invalid payout value", which
    contains "Invalid"; entered from command mode, the loop does not
    break. *)
Theorem invalid_number_keeps_setting :
  forall (float_of_str : string -> option Q) (str_float : Q -> string)
         (t : BinOptTUI) (cmd now verb arg : string) (rest : list string),
    verb = "risk" \/ verb = "payout" ->
    split (strip cmd) = verb :: arg :: rest ->
    float_of_str arg = None ->
    let r := handle_command float_of_str str_float t cmd now in
    fst r = None /\
    session (snd r) = session t /\
    risk_percent (session (snd r)) = risk_percent (session t) /\
    payout_percent (session (snd r)) = payout_percent (session t) /\
    status_message (snd r) = "Invalid " ++ verb ++ " value" /\
    contains "Invalid" (status_message (snd r)) = true /\
    (mode t = "COMMAND" -> command_buffer t = cmd ->
     fst (handle_key float_of_str str_float t 10 now) = false).
Proof.
  intros float_of_str str_float t cmd now verb arg rest Hverb Hparts Harg.
  assert (Hcmd : handle_command float_of_str str_float t cmd now =
                 (None, set_status t ("Invalid " ++ verb ++ " value"))).
  { destruct Hverb as [-> | ->].
    - rewrite (handle_command_risk_arg _ _ _ _ _ _ _ Hparts).
      unfold pyfloat. rewrite Harg. reflexivity.
    - rewrite (handle_command_payout_arg _ _ _ _ _ _ _ Hparts).
      unfold pyfloat. rewrite Harg. reflexivity. }
  cbv zeta. rewrite Hcmd. cbn [fst snd set_status session status_message].
  do 5 (split; [reflexivity |]). split.
  - destruct Hverb as [-> | ->]; reflexivity.
  - intros Hmode Hbuf. subst cmd.
    rewrite (handle_key_enter_continues _ _ _ _ _ Hmode Hcmd). reflexivity.
Qed.

Lemma invalid_number_keeps_setting_witness :
  split (strip "risk abc") = ["risk"; "abc"] /\
  float_of_digits "abc" = None /\
  risk_percent
    (session (snd (handle_command float_of_digits show_fraction tui0
                     "risk abc" "09:30:00"))) = 5 /\
  status_message
    (snd (handle_command float_of_digits show_fraction tui0
            "risk abc" "09:30:00")) = "Invalid risk value".
Proof.
  split; [reflexivity |]. split; [reflexivity |].
  pose proof (invalid_number_keeps_setting float_of_digits show_fraction tui0
                "risk abc" "09:30:00" "risk" "abc" []
                (or_introl eq_refl) eq_refl eq_refl)
    as (_ & _ & Hrisk & _ & Hstatus & _).
  split; [exact Hrisk | exact Hstatus].
Defined.


(** * Further properties of the ledger *)

(** ** The ledger and its history *)

Lemma apply_op_initial_balance :
  forall s op, initial_balance (apply_op s op) = initial_balance s.
Proof.
  intros s [c | | now | v | v]; cbn [apply_op]; try reflexivity.
  - apply record_initial_balance.
  - destruct (history_empty_dec s) as [E | Hne].
    + rewrite undo_last_trade_empty by exact E. reflexivity.
    + destruct (nonempty_snoc _ _ Hne) as (ts & t & Hts).
      apply (undo_last_trade_app s ts t Hts).
Qed.

Lemma run_ops_initial_balance :
  forall ops s, initial_balance (run_ops s ops) = initial_balance s.
Proof.
  unfold run_ops.
  induction ops as [| op ops IH]; intro s; cbn [fold_left];
    [reflexivity | rewrite IH; apply apply_op_initial_balance].
Qed.

(** ** Undo, repeated *)

Lemma undo_same_ledger :
  forall a b,
    same_ledger a b ->
    same_ledger (snd (undo_last_trade a)) (snd (undo_last_trade b)).
Proof.
  intros a b (Hi & Hc & Ht).
  destruct (history_empty_dec a) as [E | Hne].
  - rewrite (undo_last_trade_empty a E).
    rewrite (undo_last_trade_empty b) by (rewrite <- Ht; exact E).
    repeat split; assumption.
  - destruct (nonempty_snoc _ _ Hne) as (ts & t & Hts).
    destruct (undo_last_trade_app a ts t Hts)
      as (_ & Hta & Hca & _ & Hia & _).
    rewrite Ht in Hts.
    destruct (undo_last_trade_app b ts t Hts)
      as (_ & Htb & Hcb & _ & Hib & _).
    unfold same_ledger. rewrite Hta, Htb, Hca, Hcb, Hia, Hib, Hi.
    repeat split; reflexivity.
Qed.

Lemma undos_same_ledger :
  forall n a b,
    same_ledger a b ->
    same_ledger (run_ops a (repeat OpUndo n)) (run_ops b (repeat OpUndo n)).
Proof.
  unfold run_ops.
  induction n as [| n IH]; intros a b H; cbn [repeat fold_left apply_op];
    [exact H | apply IH, undo_same_ledger, H].
Qed.

Lemma record_all_snoc :
  forall calls c s, record_all s (calls ++ [c]) = record (record_all s calls) c.
Proof.
  intros calls c s. unfold record_all. rewrite fold_left_app. reflexivity.
Qed.

Lemma record_all_ledger_ok :
  forall calls s, ledger_ok s -> ledger_ok (record_all s calls).
Proof.
  intros calls s H. rewrite record_all_run_ops. apply run_ops_ledger_ok, H.
Qed.

Lemma records_then_undos_same_ledger :
  forall calls s,
    ledger_ok s ->
    same_ledger
      (run_ops (record_all s calls) (repeat OpUndo (List.length calls))) s.
Proof.
  induction calls as [| c calls IH] using rev_ind; intros s Hok.
  - repeat split.
  - rewrite record_all_snoc, length_app, Nat.add_comm.
    cbn [List.length Nat.add repeat].
    unfold run_ops at 1. cbn [fold_left apply_op].
    fold (run_ops (snd (undo_last_trade (record (record_all s calls) c)))
            (repeat OpUndo (List.length calls))).
    pose proof (record_all_ledger_ok calls s Hok) as Hok1.
    destruct (record_then_undo_restores (record_all s calls) c (proj1 Hok1))
      as (_ & Hcur & Htr & _).
    assert (Hsame :
      same_ledger (snd (undo_last_trade (record (record_all s calls) c)))
        (record_all s calls)).
    { repeat split; try assumption.
      change (initial_balance
                (apply_op (record (record_all s calls) c) OpUndo) =
              initial_balance (record_all s calls)).
      rewrite apply_op_initial_balance. apply record_initial_balance. }
    apply (undos_same_ledger (List.length calls)) in Hsame.
    destruct Hsame as (H1 & H2 & H3). destruct (IH s Hok) as (H4 & H5 & H6).
    repeat split; congruence.
Qed.

(** X2: from any reachable session, recording [n] trades and then undoing
    [n] times brings back the history and the balance of before. *)
Theorem records_then_undos_restore :
  forall (config : Config) (now : string) (ops : list Op) (calls : list Call),
    let s := run_ops (Session_init config now) ops in
    let s' := run_ops (record_all s calls)
                (repeat OpUndo (List.length calls)) in
    trades s' = trades s /\ current_balance s' = current_balance s.
Proof.
  intros config now ops calls. cbv zeta.
  destruct (records_then_undos_same_ledger calls
              (run_ops (Session_init config now) ops)) as (_ & Hc & Ht).
  - apply run_ops_ledger_ok, Session_init_ledger_ok.
  - split; assumption.
Qed.

Lemma undos_on_empty_history :
  forall n s, trades s = [] -> run_ops s (repeat OpUndo n) = s.
Proof.
  unfold run_ops.
  induction n as [| n IH]; intros s E; cbn [repeat fold_left apply_op];
    [reflexivity |].
  rewrite (undo_last_trade_empty s E). cbn [snd]. apply IH, E.
Qed.

(** X3: undoing at least as many times as there are trades, on a history
    that is not empty, ends with an empty history, the initial balance and
    both streak counters at zero; [max_balance] and [min_balance] are what
    they were, and one more undo fails and changes nothing. *)
Theorem undo_until_empty :
  forall (s : Session) (n : nat),
    trades s <> [] ->
    (List.length (trades s) <= n)%nat ->
    let s' := run_ops s (repeat OpUndo n) in
    trades s' = [] /\
    current_balance s' = initial_balance s /\
    streaks s' = (0%Z, 0%Z) /\
    max_balance s' = max_balance s /\
    min_balance s' = min_balance s /\
    undo_last_trade s' = (false, s').
Proof.
  intros s n. revert s.
  induction n as [| n IH]; intros s Hne Hlen.
  - destruct (trades s); [contradiction | cbn in Hlen; lia].
  - destruct (nonempty_snoc _ _ Hne) as (ts & t & Hts).
    destruct (undo_last_trade_app s ts t Hts)
      as (_ & Htr & Hcur & Hst & Hinit & _ & _ & _ & _ & _ & Hmax & Hmin).
    cbv zeta. unfold run_ops. cbn [repeat fold_left apply_op].
    fold (run_ops (snd (undo_last_trade s)) (repeat OpUndo n)).
    destruct ts as [| u ts].
    + rewrite (undos_on_empty_history n _ Htr).
      rewrite (undo_last_trade_empty _ Htr).
      repeat split; assumption.
    + assert (Hne1 : trades (snd (undo_last_trade s)) <> [])
        by (rewrite Htr; discriminate).
      assert (Hlen1 : (List.length (trades (snd (undo_last_trade s))) <= n)%nat).
      { rewrite Htr. rewrite Hts, length_app in Hlen. cbn in Hlen |- *. lia. }
      destruct (IH _ Hne1 Hlen1) as (H1 & H2 & H3 & H4 & H5 & H6).
      repeat split; try assumption; congruence.
Qed.

Lemma undo_until_empty_witness :
  trades session2 <> [] /\
  (List.length (trades session2) <= 5)%nat /\
  trades (run_ops session2 (repeat OpUndo 5)) = [] /\
  current_balance (run_ops session2 (repeat OpUndo 5)) = 2000.
Proof.
  assert (Hne : trades session2 <> []) by discriminate.
  assert (Hlen : (List.length (trades session2) <= 5)%nat) by (cbn; lia).
  split; [exact Hne |]. split; [exact Hlen |].
  destruct (undo_until_empty session2 5 Hne Hlen) as (Ht & Hc & _).
  split; [exact Ht | exact Hc].
Defined.

(** ** Streak counters after undo *)

(** X4: after a successful undo the two counters are the lengths of the run
    of wins and of the run of losses at the recent end of the surviving
    history, so two sessions whose surviving histories show the same
    outcomes get the same counters, whatever else differs. *)
Theorem undo_streaks_depend_on_outcomes_only :
  forall s1 s2 : Session,
    trades s1 <> [] -> trades s2 <> [] ->
    let u1 := snd (undo_last_trade s1) in
    let u2 := snd (undo_last_trade s2) in
    streaks u1 =
      (leading WIN (rev (trades u1)), leading LOSS (rev (trades u1))) /\
    (map result (trades u1) = map result (trades u2) ->
     streaks u1 = streaks u2).
Proof.
  intros s1 s2 Hne1 Hne2.
  destruct (nonempty_snoc _ _ Hne1) as (ts1 & t1 & Hts1).
  destruct (nonempty_snoc _ _ Hne2) as (ts2 & t2 & Hts2).
  destruct (undo_last_trade_app s1 ts1 t1 Hts1) as (_ & Htr1 & _ & Hst1 & _).
  destruct (undo_last_trade_app s2 ts2 t2 Hts2) as (_ & Htr2 & _ & Hst2 & _).
  cbv zeta. rewrite Htr1, Htr2, Hst1, Hst2. split.
  - apply scan_streaks_leading.
  - intro Hmap. apply scan_streaks_results_only.
    rewrite !map_rev, Hmap. reflexivity.
Qed.

Lemma undo_streaks_depend_on_outcomes_only_witness :
  trades session2 <> [] /\
  streaks (snd (undo_last_trade session2)) =
    (leading WIN (rev (trades (snd (undo_last_trade session2)))),
     leading LOSS (rev (trades (snd (undo_last_trade session2))))).
Proof.
  assert (Hne : trades session2 <> []) by discriminate.
  split; [exact Hne |].
  exact (proj1 (undo_streaks_depend_on_outcomes_only session2 session2
                  Hne Hne)).
Defined.

Lemma replay_streaks_scan_without_push :
  forall config now ts,
    streaks (replay_record config now ts) =
    scan_streaks (rev (filter not_push ts)) 0 0.
Proof.
  intros config now ts.
  rewrite replay_record_streaks, scan_streaks_leading.
  rewrite <- (rev_involutive ts) at 1.
  rewrite replay_streaks_leading, filter_rev. reflexivity.
Qed.

(** X5: replaying [add_trade] over a history gives the counters that the
    backward scan of undo would give on that history with its pushes taken
    out; so after a successful undo whose surviving history holds no push,
    the counters are those of the replay. *)
Theorem undo_streaks_are_replay_without_pushes :
  forall (config : Config) (now : string) (s : Session),
    trades s <> [] ->
    let s' := snd (undo_last_trade s) in
    streaks (replay_record config now (trades s')) =
      scan_streaks (rev (filter not_push (trades s'))) 0 0 /\
    streaks s' = scan_streaks (rev (trades s')) 0 0 /\
    (forallb not_push (trades s') = true ->
     streaks s' = streaks (replay_record config now (trades s'))).
Proof.
  intros config now s Hne.
  destruct (nonempty_snoc _ _ Hne) as (ts & t & Hts).
  destruct (undo_last_trade_app s ts t Hts) as (_ & Htr & _ & Hst & _).
  cbv zeta. rewrite Htr, Hst.
  split; [apply replay_streaks_scan_without_push |].
  split; [reflexivity |].
  intro Hnp. rewrite replay_streaks_scan_without_push.
  rewrite (filter_not_push_id ts Hnp). reflexivity.
Qed.

Lemma undo_streaks_are_replay_without_pushes_witness :
  trades session2 <> [] /\
  forallb not_push (trades (snd (undo_last_trade session2))) = true /\
  streaks (snd (undo_last_trade session2)) =
    streaks (replay_record default_config "09:00:00"
               (trades (snd (undo_last_trade session2)))).
Proof.
  assert (Hne : trades session2 <> []) by discriminate.
  split; [exact Hne |]. split; [reflexivity |].
  apply (proj2 (proj2 (undo_streaks_are_replay_without_pushes
                         default_config "09:00:00" session2 Hne))).
  reflexivity.
Defined.

(** ** Bounds on the streak counters *)

Lemma count_result_nonneg : forall r ts, (0 <= count_result r ts)%Z.
Proof. intros r ts. unfold count_result, len. lia. Qed.

Lemma count_result_app :
  forall r xs ys,
    count_result r (xs ++ ys) = (count_result r xs + count_result r ys)%Z.
Proof.
  intros r xs ys. unfold count_result, with_result, len.
  rewrite filter_app, length_app. lia.
Qed.

Lemma count_result_rev :
  forall r ts, count_result r (rev ts) = count_result r ts.
Proof.
  intros r ts. unfold count_result, with_result, len.
  rewrite filter_rev, length_rev. reflexivity.
Qed.

Lemma count_result_cons :
  forall r t ts,
    count_result r (t :: ts) =
    ((if TradeResult_eqb (result t) r then 1 else 0) + count_result r ts)%Z.
Proof.
  intros r t ts. unfold count_result, with_result, len. cbn [filter].
  destruct (TradeResult_eqb (result t) r); cbn [List.length]; lia.
Qed.

Lemma leading_le_count :
  forall r ts, (0 <= leading r ts <= count_result r ts)%Z.
Proof.
  intros r ts. induction ts as [| t ts IH].
  - cbn [leading]. unfold count_result, len. cbn. lia.
  - rewrite count_result_cons. cbn [leading].
    destruct (TradeResult_eqb (result t) r);
      [lia | pose proof (count_result_nonneg r ts); lia].
Qed.

Lemma add_trade_result :
  forall s r ty custom now, result (fst (add_trade s r ty custom now)) = r.
Proof. intros s [] ty custom now; reflexivity. Qed.

Lemma record_streaks_bounded :
  forall s c, streaks_bounded s -> streaks_bounded (record s c).
Proof.
  intros s c [Hw Hl]. unfold streaks_bounded.
  rewrite record_trades, !count_result_app, !count_result_cons.
  rewrite add_trade_result.
  change (count_result WIN []) with 0%Z.
  change (count_result LOSS []) with 0%Z.
  assert (Hw' : consecutive_wins (record s c) =
                fst (streak_step (streaks s) (call_result c)))
    by (rewrite <- record_streaks; reflexivity).
  assert (Hl' : consecutive_losses (record s c) =
                snd (streak_step (streaks s) (call_result c)))
    by (rewrite <- record_streaks; reflexivity).
  rewrite Hw', Hl'. unfold streaks.
  destruct (call_result c); cbn [streak_step fst snd TradeResult_eqb]; lia.
Qed.

Lemma undo_streaks_bounded :
  forall s, streaks_bounded s -> streaks_bounded (snd (undo_last_trade s)).
Proof.
  intros s H. destruct (history_empty_dec s) as [E | Hne].
  - rewrite undo_last_trade_empty by exact E. exact H.
  - pose proof (undo_streaks_from_history s Hne) as Hst. cbv zeta in Hst.
    unfold streaks in Hst. injection Hst as Hw Hl.
    unfold streaks_bounded. rewrite Hw, Hl.
    rewrite <- (count_result_rev WIN), <- (count_result_rev LOSS).
    split; apply leading_le_count.
Qed.

(** X6: in every reachable session each streak counter lies between zero
    and the number of trades of its outcome in the history: a counter is
    never negative and never counts more wins (losses) than were kept. *)
Theorem streaks_bounded_by_history :
  forall (config : Config) (now : string) (ops : list Op),
    let s := run_ops (Session_init config now) ops in
    (0 <= consecutive_wins s <= count_result WIN (trades s))%Z /\
    (0 <= consecutive_losses s <= count_result LOSS (trades s))%Z.
Proof.
  intros config now ops. cbv zeta.
  change (streaks_bounded (run_ops (Session_init config now) ops)).
  assert (H0 : streaks_bounded (Session_init config now))
    by (split; cbn; lia).
  revert H0. generalize (Session_init config now). unfold run_ops.
  induction ops as [| op ops IH]; intros s H; cbn [fold_left];
    [exact H |].
  apply IH. destruct op as [c | | t | v | v]; cbn [apply_op].
  - apply record_streaks_bounded, H.
  - apply undo_streaks_bounded, H.
  - split; cbn; lia.
  - exact H.
  - exact H.
Qed.

(** ** The risk booked with a trade *)

(** X8: a trade recorded with an override that is not zero carries that
    override as its risk amount; a trade recorded without an override
    carries the balance times [risk_percent / 100]; in both cases the trade
    keeps the outcome it was recorded with and the balance the session has
    right after it. *)
Theorem add_trade_books_resolved_risk :
  forall (s : Session) (r : TradeResult) (ty now : string),
    (forall v : Q, ~ v == 0 ->
       let t := fst (add_trade s r ty (Some v) now) in
       risk_amount t = v /\ result t = r /\
       balance_after t =
         current_balance (snd (add_trade s r ty (Some v) now))) /\
    (let t := fst (add_trade s r ty None now) in
     risk_amount t = current_balance s * (risk_percent s / 100) /\
     result t = r /\
     balance_after t = current_balance (snd (add_trade s r ty None now))).
Proof.
  intros s r ty now. split.
  - intros v Hv. cbv zeta.
    rewrite add_trade_risk_amount, add_trade_result.
    rewrite (resolve_risk_override s v Hv).
    repeat split. destruct r; reflexivity.
  - cbv zeta. rewrite add_trade_risk_amount, add_trade_result.
    repeat split. destruct r; reflexivity.
Qed.

Lemma add_trade_books_resolved_risk_witness :
  ~ 50 == 0 /\
  risk_amount (fst (add_trade session0 LOSS "PUT" (Some 50) "12:00:00")) = 50.
Proof.
  assert (H : ~ 50 == 0) by (intro H; vm_compute in H; discriminate H).
  split; [exact H |].
  apply (proj1 (add_trade_books_resolved_risk session0 LOSS "PUT" "12:00:00")
           50 H).
Defined.

(** ** Statistics *)

Lemma pydiv_ok : forall x y, ~ y == 0 -> pydiv x y = Ok (x / y).
Proof.
  intros x y H. unfold pydiv.
  destruct (Qeq_bool y 0) eqn:E; [apply Qeq_bool_iff in E; contradiction |].
  reflexivity.
Qed.

Lemma pydiv_raise : forall x y, y == 0 -> pydiv x y = Raise ZeroDivisionError.
Proof.
  intros x y H. unfold pydiv. apply Qeq_bool_iff in H. rewrite H. reflexivity.
Qed.

Lemma len_cons_nonzero :
  forall (A : Type) (x : A) (xs : list A), ~ inject_Z (len (x :: xs)) == 0.
Proof.
  intros A x xs H. unfold len in H. cbn [List.length] in H.
  apply (proj1 (inject_Z_injective _ 0)) in H. lia.
Qed.

Lemma mean_of_value :
  forall f xs, mean_of f xs = Ok (mean_value f xs).
Proof.
  intros f [| x xs]; cbn [mean_of mean_value]; [reflexivity |].
  apply pydiv_ok, len_cons_nonzero.
Qed.

Lemma breakeven_divisor_zero :
  forall p : Q, 1 + p / 100 == 0 <-> p == - (100).
Proof.
  intro p. assert (H : p / 100 == p * (1 # 100)) by field.
  rewrite H. split; intro; lra.
Qed.

Lemma stats_no_trades :
  forall s, trades s = [] -> stats s = Ok zero_stats.
Proof. intros s E. unfold stats. rewrite E. reflexivity. Qed.

(** On a history that is not empty, [stats] is a chain of three divisions
    that can raise, by the initial balance (twice) and by
    [1 + payout_percent / 100]. *)
Lemma stats_nonempty :
  forall s,
    trades s <> [] ->
    stats s =
    (_ <- pydiv (current_balance s - initial_balance s) (initial_balance s) ;;
     _ <- pydiv (initial_balance s - min_balance s) (initial_balance s) ;;
     _ <- pydiv 100 (1 + payout_percent s / 100) ;;
     Ok (stats_value s)).
Proof.
  intros s Hne. unfold stats, stats_value, count_result.
  destruct (trades s) as [| t ts] eqn:E; [contradiction |].
  assert (Hpos : (len (t :: ts) >? 0)%Z = true).
  { unfold len. cbn [List.length]. apply Z.gtb_lt. lia. }
  cbv zeta. rewrite Hpos.
  rewrite (pydiv_ok _ _ (len_cons_nonzero _ t ts)).
  rewrite !mean_of_value. cbn [bind].
  unfold pydiv.
  destruct (Qeq_bool (initial_balance s) 0); [reflexivity |].
  cbn [bind].
  destruct (Qeq_bool (1 + payout_percent s / 100) 0); reflexivity.
Qed.

(** X9: [stats] raises exactly when the history is not empty and either the
    initial balance is zero or the payout setting is -100 (the divisor of the
    break-even rate is then zero); the exception is [ZeroDivisionError], and
    in every other case [stats] returns a dict. *)
Theorem stats_raises_exactly_on_zero_divisor :
  forall s : Session,
    (stats s = Raise ZeroDivisionError <->
     trades s <> [] /\
     (initial_balance s == 0 \/ payout_percent s == - (100))) /\
    ((exists st, stats s = Ok st) <->
     trades s = [] \/
     (~ initial_balance s == 0 /\ ~ payout_percent s == - (100))) /\
    stats s <> Raise ValueError.
Proof.
  intro s. destruct (history_empty_dec s) as [E | Hne].
  - rewrite (stats_no_trades s E).
    split; [split; [discriminate | intros [H _]; contradiction] |].
    split; [split; [auto | eauto] | discriminate].
  - rewrite (stats_nonempty s Hne). unfold pydiv.
    destruct (Qeq_bool (initial_balance s) 0) eqn:Ei; cbn [bind].
    + apply Qeq_bool_iff in Ei.
      split; [split; [auto | reflexivity] |].
      split; [| discriminate].
      split; [intros [st Hst]; discriminate Hst |].
      intros [H | [H _]]; contradiction.
    + assert (Hi : ~ initial_balance s == 0)
        by (intro H; apply Qeq_bool_iff in H; congruence).
      destruct (Qeq_bool (1 + payout_percent s / 100) 0) eqn:Ep; cbn [bind].
      * apply Qeq_bool_iff, breakeven_divisor_zero in Ep.
        split; [split; [auto | reflexivity] |].
        split; [| discriminate].
        split; [intros [st Hst]; discriminate Hst |].
        intros [H | [_ H]]; contradiction.
      * assert (Hp : ~ payout_percent s == - (100)).
        { intro H. apply breakeven_divisor_zero, Qeq_bool_iff in H.
          congruence. }
        split; [split; [discriminate |] |].
        { intros [_ [H | H]]; contradiction. }
        split; [split; [auto | eauto] | discriminate].
Qed.

Lemma stats_ok_cases :
  forall s st,
    stats s = Ok st ->
    (trades s = [] /\ st = zero_stats) \/
    (trades s <> [] /\ ~ initial_balance s == 0 /\ st = stats_value s).
Proof.
  intros s st Hst. destruct (history_empty_dec s) as [E | Hne].
  - left. rewrite (stats_no_trades s E) in Hst. injection Hst as <-. auto.
  - right. rewrite (stats_nonempty s Hne) in Hst. unfold pydiv in Hst.
    destruct (Qeq_bool (initial_balance s) 0) eqn:Ei; [discriminate Hst |].
    cbn [bind] in Hst.
    destruct (Qeq_bool (1 + payout_percent s / 100) 0);
      [discriminate Hst |].
    cbn [bind] in Hst. injection Hst as <-.
    repeat split; [exact Hne |].
    intro H. apply Qeq_bool_iff in H. congruence.
Qed.

Lemma count_result_partition :
  forall ts,
    (count_result WIN ts + count_result LOSS ts + count_result PUSH ts)%Z =
    len ts.
Proof.
  induction ts as [| t ts IH].
  - reflexivity.
  - rewrite !count_result_cons.
    replace (len (t :: ts)) with (1 + len ts)%Z
      by (unfold len; cbn [List.length]; lia).
    destruct (result t); cbn [TradeResult_eqb]; lia.
Qed.

Lemma count_result_le_len :
  forall r ts, (count_result r ts <= len ts)%Z.
Proof.
  intros r ts. unfold count_result, with_result, len.
  apply inj_le, filter_length_le.
Qed.

Lemma percent_of_part :
  forall w n : Z,
    (0 <= w <= n)%Z -> (0 < n)%Z ->
    0 <= inject_Z w / inject_Z n * 100 <= 100.
Proof.
  intros w n [Hw Hwn] Hn.
  assert (Hn' : inject_Z 0 < inject_Z n) by (rewrite <- Zlt_Qlt; exact Hn).
  assert (Hw' : inject_Z 0 <= inject_Z w) by (rewrite <- Zle_Qle; exact Hw).
  change (inject_Z 0) with 0 in Hn', Hw'.
  assert (Hwn' : inject_Z w <= inject_Z n) by (rewrite <- Zle_Qle; exact Hwn).
  assert (H0 : 0 <= inject_Z w / inject_Z n)
    by (apply Qle_shift_div_l; [exact Hn' | lra]).
  assert (H1 : inject_Z w / inject_Z n <= 1)
    by (apply Qle_shift_div_r; [exact Hn' | lra]).
  split; lra.
Qed.

Lemma Session_init_streaks_bounded :
  forall config now, streaks_bounded (Session_init config now).
Proof. intros config now. split; cbn; lia. Qed.

Lemma run_ops_streaks_bounded :
  forall ops s, streaks_bounded s -> streaks_bounded (run_ops s ops).
Proof.
  unfold run_ops.
  induction ops as [| op ops IH]; intros s H; cbn [fold_left];
    [exact H |].
  apply IH. destruct op as [c | | t | v | v]; cbn [apply_op].
  - apply record_streaks_bounded, H.
  - apply undo_streaks_bounded, H.
  - apply Session_init_streaks_bounded.
  - exact H.
  - exact H.
Qed.

(** X10: whenever [stats] returns, [total_trades] is the length of the
    history, [wins], [losses] and [pushes] count the trades of each outcome
    and add up to [total_trades], and [win_rate] lies between 0 and 100. *)
Theorem stats_counts_partition_history :
  forall (s : Session) (st : Stats),
    stats s = Ok st ->
    total_trades st = len (trades s) /\
    wins st = count_result WIN (trades s) /\
    losses st = count_result LOSS (trades s) /\
    pushes st = count_result PUSH (trades s) /\
    (wins st + losses st + pushes st)%Z = total_trades st /\
    0 <= win_rate st <= 100.
Proof.
  intros s st Hst.
  destruct (stats_ok_cases s st Hst) as [[E ->] | (Hne & _ & ->)].
  - rewrite E. cbn. repeat split; lra.
  - cbn [stats_value total_trades wins losses pushes win_rate].
    do 4 (split; [reflexivity |]).
    split; [apply count_result_partition |].
    apply percent_of_part.
    + split; [apply count_result_nonneg | apply count_result_le_len].
    + destruct (trades s); [contradiction |].
      unfold len. cbn [List.length]. lia.
Qed.

Lemma stats_counts_partition_history_witness :
  stats session2 = Ok (stats_value session2) /\
  total_trades (stats_value session2) = 2%Z /\
  (wins (stats_value session2) + losses (stats_value session2) +
   pushes (stats_value session2))%Z = total_trades (stats_value session2).
Proof.
  assert (H : stats session2 = Ok (stats_value session2)) by reflexivity.
  split; [exact H |].
  destruct (stats_counts_partition_history session2 _ H)
    as (Ht & _ & _ & _ & Hsum & _).
  split; [exact Ht | exact Hsum].
Defined.

(** ** Stop conditions, continued *)

(** X13: [should_stop] raises exactly when the initial balance is zero, and
    then it raises [ZeroDivisionError]; with any other initial balance it
    returns a pair. *)
Theorem should_stop_raises_exactly_on_zero_initial_balance :
  forall (format_1f : Q -> string) (s : Session),
    (should_stop format_1f s = Raise ZeroDivisionError <->
     initial_balance s == 0) /\
    ((exists r, should_stop format_1f s = Ok r) <->
     ~ initial_balance s == 0) /\
    should_stop format_1f s <> Raise ValueError.
Proof.
  intros format_1f s.
  destruct (Qeq_bool (initial_balance s) 0) eqn:E.
  - apply Qeq_bool_iff in E.
    rewrite (should_stop_zero_initial_balance format_1f s E).
    split; [split; auto |].
    split; [| discriminate].
    split; [intros [r Hr]; discriminate Hr | intro; contradiction].
  - assert (Hi : ~ initial_balance s == 0)
      by (intro H; apply Qeq_bool_iff in H; congruence).
    rewrite (should_stop_nonzero format_1f s Hi). cbv zeta.
    destruct (Qle_bool (stop_loss_percent s) _);
      [| destruct (consecutive_losses s >=? max_consecutive_losses s)%Z];
      (split; [split; [discriminate | intro; contradiction] |];
       split; [split; [auto | eauto] | discriminate]).
Qed.

(** ** Percentage staking *)





(** * Further properties of the command interpreter *)

Lemma eqb_false_of_neq :
  forall a b : string, a <> b -> String.eqb a b = false.
Proof. intros a b H. apply String.eqb_neq, H. Qed.

(** What [handle_command] returns, verb by verb. *)
Lemma handle_command_table :
  forall (float_of_str : string -> option Q) (str_float : Q -> string)
         (t : BinOptTUI) (cmd now : string),
    let r := handle_command float_of_str str_float t cmd now in
    match split (strip cmd) with
    | [] => r = (None, t)
    | verb :: rest =>
        (verb = "q" \/ verb = "quit" \/ verb = "wq" ->
         r = (Some "QUIT", t)) /\
        (verb = "w" ->
         r = (None, set_status t "Session saved (not implemented yet)")) /\
        (verb = "reset" ->
         r = (None,
              set_status (set_session t (reset_session (session t) now))
                "Session reset")) /\
        (verb = "risk" -> forall arg rest', rest = arg :: rest' ->
         r = match float_of_str arg with
             | Some v =>
                 (None,
                  set_status
                    (set_session t (set_risk_percent (session t) v))
                    ("Risk set to " ++ str_float v ++ "%"))
             | None => (None, set_status t "Invalid risk value")
             end) /\
        (verb = "payout" -> forall arg rest', rest = arg :: rest' ->
         r = match float_of_str arg with
             | Some v =>
                 (None,
                  set_status
                    (set_session t (set_payout_percent (session t) v))
                    ("Payout set to " ++ str_float v ++ "%"))
             | None => (None, set_status t "Invalid payout value")
             end) /\
        (verb = "help" ->
         r = (None,
              set_status t
                "w=win l=loss p=push dd=undo :q=quit :risk N :payout N")) /\
        (~ In verb known_verbs \/
         ((verb = "risk" \/ verb = "payout") /\ rest = []) ->
         r = (None, set_status t ("Unknown command: " ++ verb)))
    end.
Proof.
  intros float_of_str str_float t cmd now. cbv zeta. unfold handle_command.
  destruct (split (strip cmd)) as [| verb rest]; [reflexivity |].
  split; [intros [-> | [-> | ->]]; reflexivity |].
  split; [intros ->; reflexivity |].
  split; [intros ->; reflexivity |].
  split.
  { intros -> arg rest' ->. rewrite len_two_or_more. cbn [is_in existsb].
    change (String.eqb "risk" "q") with false.
    change (String.eqb "risk" "quit") with false.
    change (String.eqb "risk" "w") with false.
    change (String.eqb "risk" "wq") with false.
    change (String.eqb "risk" "reset") with false.
    change (String.eqb "risk" "risk") with true.
    cbn [orb andb nth]. unfold pyfloat.
    destruct (float_of_str arg); reflexivity. }
  split.
  { intros -> arg rest' ->. rewrite len_two_or_more. cbn [is_in existsb].
    change (String.eqb "payout" "q") with false.
    change (String.eqb "payout" "quit") with false.
    change (String.eqb "payout" "w") with false.
    change (String.eqb "payout" "wq") with false.
    change (String.eqb "payout" "reset") with false.
    change (String.eqb "payout" "risk") with false.
    change (String.eqb "payout" "payout") with true.
    cbn [orb andb nth]. unfold pyfloat.
    destruct (float_of_str arg); reflexivity. }
  split; [intros ->; reflexivity |].
  intros [Hun | [[-> | ->] ->]]; [| reflexivity | reflexivity].
  unfold known_verbs in Hun. cbn [In] in Hun. cbn [is_in existsb].
  rewrite !eqb_false_of_neq by (intro; apply Hun; auto 10).
  reflexivity.
Qed.

Lemma verb_known_dec :
  forall verb : string, {In verb known_verbs} + {~ In verb known_verbs}.
Proof. intro verb. apply in_dec, string_dec. Qed.

(** Every command falls in one of five classes: nothing to run, quit, a
    status message only, reset, or a setting given a number. *)
Lemma handle_command_shape :
  forall (float_of_str : string -> option Q) (str_float : Q -> string)
         (t : BinOptTUI) (cmd now : string),
    let r := handle_command float_of_str str_float t cmd now in
    (split (strip cmd) = [] /\ r = (None, t)) \/
    (exists verb rest,
       split (strip cmd) = verb :: rest /\
       (verb = "q" \/ verb = "quit" \/ verb = "wq") /\
       r = (Some "QUIT", t)) \/
    (exists verb rest msg,
       split (strip cmd) = verb :: rest /\
       ~ (verb = "q" \/ verb = "quit" \/ verb = "wq") /\
       verb <> "reset" /\
       r = (None, set_status t msg)) \/
    (exists rest,
       split (strip cmd) = "reset" :: rest /\
       r = (None,
            set_status (set_session t (reset_session (session t) now))
              "Session reset")) \/
    (exists verb arg rest v msg,
       split (strip cmd) = verb :: arg :: rest /\
       float_of_str arg = Some v /\
       ((verb = "risk" /\
         r = (None,
              set_status (set_session t (set_risk_percent (session t) v))
                msg)) \/
        (verb = "payout" /\
         r = (None,
              set_status (set_session t (set_payout_percent (session t) v))
                msg)))).
Proof.
  intros float_of_str str_float t cmd now. cbv zeta.
  pose proof (handle_command_table float_of_str str_float t cmd now) as H.
  cbv zeta in H.
  destruct (split (strip cmd)) as [| verb rest]; [left; auto |].
  destruct H as (Hquit & Hw & Hreset & Hrisk & Hpayout & Hhelp & Hunknown).
  right.
  destruct (string_dec verb "q") as [-> | Nq];
    [left; exists "q", rest; auto |].
  destruct (string_dec verb "quit") as [-> | Nquit];
    [left; exists "quit", rest; auto 6 |].
  destruct (string_dec verb "wq") as [-> | Nwq];
    [left; exists "wq", rest; auto 6 |].
  right.
  assert (Hnq : ~ (verb = "q" \/ verb = "quit" \/ verb = "wq"))
    by (intros [E | [E | E]]; contradiction).
  destruct (string_dec verb "reset") as [-> | Nreset];
    [right; left; exists rest; auto |].
  destruct (string_dec verb "w") as [-> | Nw];
    [left; eexists; eexists; eexists; repeat split;
       [exact Hnq | exact Nreset | apply Hw; reflexivity] |].
  destruct (string_dec verb "help") as [-> | Nhelp];
    [left; eexists; eexists; eexists; repeat split;
       [exact Hnq | exact Nreset | apply Hhelp; reflexivity] |].
  destruct (string_dec verb "risk") as [-> | Nrisk].
  { destruct rest as [| arg rest'].
    - left. eexists; eexists; eexists; repeat split;
        [exact Hnq | exact Nreset | apply Hunknown; auto].
    - specialize (Hrisk eq_refl arg rest' eq_refl).
      destruct (float_of_str arg) as [v |] eqn:Ef.
      + right; right. exists "risk", arg, rest', v. eexists.
        split; [reflexivity |]. split; [exact Ef |]. left.
        split; [reflexivity | exact Hrisk].
      + left. eexists; eexists; eexists; repeat split;
          [exact Hnq | exact Nreset | exact Hrisk]. }
  destruct (string_dec verb "payout") as [-> | Npayout].
  { destruct rest as [| arg rest'].
    - left. eexists; eexists; eexists; repeat split;
        [exact Hnq | exact Nreset | apply Hunknown; auto].
    - specialize (Hpayout eq_refl arg rest' eq_refl).
      destruct (float_of_str arg) as [v |] eqn:Ef.
      + right; right. exists "payout", arg, rest', v. eexists.
        split; [reflexivity |]. split; [exact Ef |]. right.
        split; [reflexivity | exact Hpayout].
      + left. eexists; eexists; eexists; repeat split;
          [exact Hnq | exact Nreset | exact Hpayout]. }
  left. eexists; eexists; eexists; repeat split;
    [exact Hnq | exact Nreset |].
  apply Hunknown. left. unfold known_verbs. cbn [In].
  intros [E | [E | [E | [E | [E | [E | [E | [E | []]]]]]]]];
    symmetry in E; contradiction.
Qed.

(** X17: a command returns ["QUIT"] exactly when its first token is [q],
    [quit] or [wq], and then the interface is left as it was; every other
    command returns [None].  No command changes the scroll offset, the mode
    or the command buffer. *)
Theorem handle_command_quits_on_quit_verbs_only :
  forall (float_of_str : string -> option Q) (str_float : Q -> string)
         (t : BinOptTUI) (cmd now : string),
    let r := handle_command float_of_str str_float t cmd now in
    (fst r = Some "QUIT" <->
     exists verb rest,
       split (strip cmd) = verb :: rest /\
       (verb = "q" \/ verb = "quit" \/ verb = "wq")) /\
    (fst r = Some "QUIT" \/ fst r = None) /\
    (fst r = Some "QUIT" -> snd r = t) /\
    scroll_offset (snd r) = scroll_offset t /\
    mode (snd r) = mode t /\
    command_buffer (snd r) = command_buffer t.
Proof.
  intros float_of_str str_float t cmd now. cbv zeta.
  destruct (handle_command_shape float_of_str str_float t cmd now)
    as [(Hp & ->)
       | [(verb & rest & Hp & Hv & ->)
         | [(verb & rest & msg & Hp & Hnq & _ & ->)
           | [(rest & Hp & ->)
             | (verb & arg & rest & v & msg & Hp & _ & [[Hv ->] | [Hv ->]])]]]];
    cbn [fst snd set_status set_session scroll_offset mode command_buffer];
    rewrite Hp.
  - split; [| auto 6]; split; [discriminate |].
    intros (v & r & H & _). discriminate H.
  - split; [| auto 6]; split; [eauto | reflexivity].
  - split; [split; [discriminate |] | split; [auto |]].
    + intros (v & r & H & Hv). injection H as <- _. contradiction.
    + split; [discriminate | auto].
  - split; [split; [discriminate |] | split; [auto |]].
    + intros (v & r & H & [Hv | [Hv | Hv]]); injection H as <- _;
        discriminate Hv.
    + split; [discriminate | auto].
  - subst verb. split; [split; [discriminate |] | split; [auto |]].
    + intros (v' & r & H & [Hv | [Hv | Hv]]); injection H as <- _;
        discriminate Hv.
    + split; [discriminate | auto].
  - subst verb. split; [split; [discriminate |] | split; [auto |]].
    + intros (v' & r & H & [Hv | [Hv | Hv]]); injection H as <- _;
        discriminate Hv.
    + split; [discriminate | auto].
Qed.

(** X18: the [reset] command, whatever follows the verb, replaces the
    session by a fresh one that keeps the initial balance and the current
    risk and payout settings, has an empty history, the initial balance as
    balance and as both extremes, zero streak counters, and the built-in
    limits 20 and 5 in place of whatever limits the session was configured
    with; the scroll offset is not reset. *)
Theorem reset_command_rebuilds_session_with_default_limits :
  forall (float_of_str : string -> option Q) (str_float : Q -> string)
         (t : BinOptTUI) (cmd now : string) (rest : list string),
    split (strip cmd) = "reset" :: rest ->
    let r := handle_command float_of_str str_float t cmd now in
    let s := session t in
    let s' := session (snd r) in
    fst r = None /\
    status_message (snd r) = "Session reset" /\
    scroll_offset (snd r) = scroll_offset t /\
    initial_balance s' = initial_balance s /\
    risk_percent s' = risk_percent s /\
    payout_percent s' = payout_percent s /\
    stop_loss_percent s' = 20 /\
    max_consecutive_losses s' = 5%Z /\
    trades s' = [] /\
    current_balance s' = initial_balance s /\
    max_balance s' = initial_balance s /\
    min_balance s' = initial_balance s /\
    streaks s' = (0%Z, 0%Z) /\
    start_time s' = now.
Proof.
  intros float_of_str str_float t cmd now rest Hparts.
  pose proof (handle_command_table float_of_str str_float t cmd now) as H.
  cbv zeta in H. rewrite Hparts in H.
  destruct H as (_ & _ & Hreset & _). cbv zeta.
  rewrite (Hreset eq_refl). repeat split.
Qed.

Lemma reset_command_rebuilds_session_with_default_limits_witness :
  split (strip " reset now") = ["reset"; "now"] /\
  stop_loss_percent
    (session
       (snd (handle_command float_of_digits show_fraction
               (mkTUI (Session_init
                         (mkConfig 1000 2 90 (Some 50) (Some 3%Z)) "08:00:00")
                  0 "Session Active" "" "NORMAL")
               " reset now" "09:30:00"))) = 20.
Proof.
  split; [reflexivity |].
  apply (reset_command_rebuilds_session_with_default_limits
           float_of_digits show_fraction _ " reset now" "09:30:00" ["now"]).
  reflexivity.
Defined.



Lemma lstrip_all_space :
  forall s, all_space s = true -> lstrip s = EmptyString.
Proof.
  induction s as [| c s IH]; cbn [all_space lstrip]; [reflexivity |].
  intro H. apply andb_prop in H as [Hc Hs]. rewrite Hc. apply IH, Hs.
Qed.

(** X20: a buffer that is empty or holds only whitespace is not a command:
    nothing is returned and nothing changes, the status message included. *)
Theorem blank_command_is_ignored :
  forall (float_of_str : string -> option Q) (str_float : Q -> string)
         (t : BinOptTUI) (cmd now : string),
    all_space cmd = true ->
    handle_command float_of_str str_float t cmd now = (None, t).
Proof.
  intros float_of_str str_float t cmd now Hblank.
  unfold handle_command, strip. rewrite (lstrip_all_space cmd Hblank).
  reflexivity.
Qed.

Lemma blank_command_is_ignored_witness :
  all_space "   " = true /\
  handle_command float_of_digits show_fraction tui0 "   " "09:30:00" =
    (None, tui0).
Proof.
  split; [reflexivity |].
  apply blank_command_is_ignored. reflexivity.
Defined.



(** X22: no command other than [reset] touches the ledger: the initial
    balance, the balance, the history, the streak counters, the extremes,
    the two limits and the start time stay as they were; only
    [risk_percent] or [payout_percent] can change. *)
Theorem commands_other_than_reset_keep_ledger :
  forall (float_of_str : string -> option Q) (str_float : Q -> string)
         (t : BinOptTUI) (cmd now : string),
    (forall rest, split (strip cmd) <> "reset" :: rest) ->
    let s := session t in
    let s' := session (snd (handle_command float_of_str str_float t cmd now)) in
    same_ledger s' s /\
    streaks s' = streaks s /\
    max_balance s' = max_balance s /\
    min_balance s' = min_balance s /\
    stop_loss_percent s' = stop_loss_percent s /\
    max_consecutive_losses s' = max_consecutive_losses s /\
    start_time s' = start_time s.
Proof.
  intros float_of_str str_float t cmd now Hnr. cbv zeta.
  destruct (handle_command_shape float_of_str str_float t cmd now)
    as [(Hp & ->)
       | [(verb & rest & Hp & Hv & ->)
         | [(verb & rest & msg & Hp & Hnq & _ & ->)
           | [(rest & Hp & ->)
             | (verb & arg & rest & v & msg & Hp & _ & [[Hv ->] | [Hv ->]])]]]];
    try (exfalso; apply (Hnr rest); exact Hp);
    cbn [snd set_status set_session session]; repeat split.
Qed.

Lemma commands_other_than_reset_keep_ledger_witness :
  (forall rest, split (strip "payout 85") <> "reset" :: rest) /\
  trades (session (snd (handle_command float_of_digits show_fraction
                          (mkTUI session2 0 "" "" "NORMAL")
                          "payout 85" "09:30:00"))) = trades session2.
Proof.
  assert (H : forall rest, split (strip "payout 85") <> "reset" :: rest)
    by (intros rest E; vm_compute in E; discriminate E).
  split; [exact H |].
  apply (commands_other_than_reset_keep_ledger float_of_digits show_fraction
           (mkTUI session2 0 "" "" "NORMAL") "payout 85" "09:30:00" H).
Defined.

(** * Further properties of the key dispatch *)

Section KeyDispatch.

Variable float_of_str : string -> option Q.
Variable str_float : Q -> string.

Lemma handle_key_enter :
  forall t now,
    mode t = "COMMAND" ->
    handle_key float_of_str str_float t 10 now =
    (match fst (handle_command float_of_str str_float t (command_buffer t) now) with
     | Some r => String.eqb r "QUIT"
     | None => false
     end,
     set_mode_buffer
       (snd (handle_command float_of_str str_float t (command_buffer t) now))
       "NORMAL" "").
Proof.
  intros t now Hmode. unfold handle_key. rewrite Hmode.
  change (String.eqb "COMMAND" "COMMAND") with true. cbv iota.
  change (10 =? 27)%Z with false. change (10 =? 10)%Z with true. cbv iota.
  destruct (handle_command float_of_str str_float t (command_buffer t) now)
    as [[r |] t1]; cbn [fst snd]; [| reflexivity].
  destruct (String.eqb r "QUIT"); reflexivity.
Qed.

Lemma handle_key_escape :
  forall t now,
    mode t = "COMMAND" ->
    handle_key float_of_str str_float t 27 now = (false, set_mode_buffer t "NORMAL" "").
Proof.
  intros t now Hmode. unfold handle_key. rewrite Hmode. reflexivity.
Qed.

Lemma handle_key_backspace :
  forall t k now,
    mode t = "COMMAND" ->
    k = 127%Z \/ k = KEY_BACKSPACE ->
    handle_key float_of_str str_float t k now =
    (false, set_mode_buffer t "COMMAND" (drop_last (command_buffer t))).
Proof.
  intros t k now Hmode [-> | ->]; unfold handle_key; rewrite Hmode;
    reflexivity.
Qed.

Lemma handle_key_printable :
  forall t k now,
    mode t = "COMMAND" ->
    (32 <= k <= 126)%Z ->
    handle_key float_of_str str_float t k now =
    (false, set_mode_buffer t "COMMAND" (command_buffer t ++ chr k)).
Proof.
  intros t k now Hmode Hk. unfold handle_key, KEY_BACKSPACE.
  rewrite Hmode. change (String.eqb "COMMAND" "COMMAND") with true. cbv iota.
  rewrite (proj2 (Z.eqb_neq k 27)) by lia.
  rewrite (proj2 (Z.eqb_neq k 10)) by lia.
  rewrite (proj2 (Z.eqb_neq k 127)) by lia.
  rewrite (proj2 (Z.eqb_neq k 263)) by lia.
  rewrite (proj2 (Z.leb_le 32 k)) by lia.
  rewrite (proj2 (Z.leb_le k 126)) by lia.
  reflexivity.
Qed.

Lemma handle_key_command_other :
  forall t k now,
    mode t = "COMMAND" ->
    k <> 27%Z -> k <> 10%Z -> k <> 127%Z -> k <> KEY_BACKSPACE ->
    ~ (32 <= k <= 126)%Z ->
    handle_key float_of_str str_float t k now = (false, t).
Proof.
  intros t k now Hmode H27 H10 H127 Hbs Hpr.
  unfold handle_key, KEY_BACKSPACE in *.
  rewrite Hmode. change (String.eqb "COMMAND" "COMMAND") with true. cbv iota.
  rewrite (proj2 (Z.eqb_neq k 27)) by lia.
  rewrite (proj2 (Z.eqb_neq k 10)) by lia.
  rewrite (proj2 (Z.eqb_neq k 127)) by lia.
  rewrite (proj2 (Z.eqb_neq k 263)) by lia.
  destruct (32 <=? k)%Z eqn:E1; destruct (k <=? 126)%Z eqn:E2;
    cbn [andb orb]; try reflexivity.
  apply Z.leb_le in E1, E2. lia.
Qed.

(** In normal mode the dispatch is a table on the key code. *)
Lemma handle_key_normal :
  forall t k now,
    mode t <> "COMMAND" ->
    (k = ord "w" ->
     handle_key float_of_str str_float t k now =
     (false,
      set_status
        (set_session t (snd (add_trade (session t) WIN "CALL" None now)))
        "WIN logged")) /\
    (k = ord "l" ->
     handle_key float_of_str str_float t k now =
     (false,
      set_status
        (set_session t (snd (add_trade (session t) LOSS "CALL" None now)))
        "LOSS logged")) /\
    (k = ord "p" ->
     handle_key float_of_str str_float t k now =
     (false,
      set_status
        (set_session t (snd (add_trade (session t) PUSH "CALL" None now)))
        "PUSH logged")) /\
    (k = ord "u" ->
     handle_key float_of_str str_float t k now =
     (false,
      set_status (set_session t (snd (undo_last_trade (session t))))
        (if fst (undo_last_trade (session t)) then "Last trade undone"
         else "No trades to undo"))) /\
    (k = ord "j" ->
     handle_key float_of_str str_float t k now =
     (false, set_scroll t (Z.max 0 (scroll_offset t - 1)))) /\
    (k = ord "k" ->
     handle_key float_of_str str_float t k now =
     (false,
      set_scroll t
        (Z.min (len (trades (session t)) - 1) (scroll_offset t + 1)))) /\
    (k = ord "g" ->
     handle_key float_of_str str_float t k now = (false, set_scroll t 0)) /\
    (k = ord "G" ->
     handle_key float_of_str str_float t k now =
     (false, set_scroll t (len (trades (session t)) - 1))) /\
    (k = ord ":" ->
     handle_key float_of_str str_float t k now =
     (false, set_mode_buffer t "COMMAND" "")) /\
    (k = ord "q" -> handle_key float_of_str str_float t k now = (true, t)) /\
    (~ In k normal_keys -> handle_key float_of_str str_float t k now = (false, t)).
Proof.
  intros t k now Hmode. unfold handle_key.
  rewrite (eqb_false_of_neq _ _ Hmode).
  repeat split; try (intros ->; reflexivity).
  - intros ->. change (ord "u" =? ord "w")%Z with false.
    change (ord "u" =? ord "l")%Z with false.
    change (ord "u" =? ord "p")%Z with false.
    change (ord "u" =? ord "u")%Z with true. cbv iota.
    destruct (undo_last_trade (session t)) as [[] s]; reflexivity.
  - intro Hk. unfold normal_keys in Hk. cbn [In] in Hk.
    repeat match goal with
           | |- context [(k =? ?c)%Z] =>
               rewrite (proj2 (Z.eqb_neq k c)) by (intro; apply Hk; auto 12)
           end.
    reflexivity.
Qed.

End KeyDispatch.

(** ** Typing a command *)

Lemma append_snoc :
  forall (b : string) (c : ascii) (r : string),
    (b ++ String c EmptyString) ++ r = b ++ String c r.
Proof.
  induction b as [| x b IH]; intros c r; cbn [String.append];
    [reflexivity | rewrite IH; reflexivity].
Qed.

Lemma append_empty_r : forall b : string, b ++ "" = b.
Proof.
  induction b as [| x b IH]; cbn [String.append];
    [reflexivity | rewrite IH; reflexivity].
Qed.

Lemma chr_ord : forall c : ascii, chr (ord c) = String c EmptyString.
Proof.
  intro c. unfold chr, ord. rewrite Nat2Z.id, ascii_nat_embedding.
  reflexivity.
Qed.

Lemma drop_last_snoc :
  forall (b : string) (c : ascii), drop_last (b ++ String c EmptyString) = b.
Proof.
  induction b as [| x b IH]; intro c; [reflexivity |].
  cbn [String.append]. specialize (IH c).
  cbn [drop_last]. destruct (b ++ String c EmptyString) eqn:E.
  - destruct b; discriminate E.
  - rewrite IH. reflexivity.
Qed.

Lemma press_keys_app :
  forall float_of_str str_float ks1 ks2 t,
    press_keys float_of_str str_float t (ks1 ++ ks2) =
    if fst (press_keys float_of_str str_float t ks1)
    then press_keys float_of_str str_float t ks1
    else press_keys float_of_str str_float
           (snd (press_keys float_of_str str_float t ks1)) ks2.
Proof.
  intros float_of_str str_float.
  induction ks1 as [| [k now] ks1 IH]; intros ks2 t;
    cbn [press_keys app fst snd]; [reflexivity |].
  destruct (handle_key float_of_str str_float t k now) as [[] t'];
    [reflexivity | apply IH].
Qed.

(** Printable keys in command mode pile up in the buffer and touch nothing
    else. *)
Lemma press_keys_typing :
  forall float_of_str str_float text ks t,
    mode t = "COMMAND" ->
    printable text ->
    map fst ks = key_codes text ->
    press_keys float_of_str str_float t ks =
    (false, set_mode_buffer t "COMMAND" (command_buffer t ++ text)).
Proof.
  intros float_of_str str_float.
  induction text as [| c text IH]; intros ks t Hmode Hpr Hks.
  - destruct ks; [| discriminate Hks]. cbn [press_keys].
    rewrite append_empty_r. destruct t; cbn in Hmode |- *. subst.
    reflexivity.
  - destruct ks as [| [k now] ks]; [discriminate Hks |].
    unfold key_codes in Hks. cbn [map list_ascii_of_string fst] in Hks.
    injection Hks as Hk Hks. subst k.
    unfold printable in Hpr. cbn [list_ascii_of_string] in Hpr.
    inversion Hpr as [| c' l' Hc Hrest]; subst.
    cbn [press_keys].
    rewrite (handle_key_printable float_of_str str_float t (ord c) now
               Hmode Hc).
    rewrite (IH ks (set_mode_buffer t "COMMAND" (command_buffer t ++ chr (ord c)))
               eq_refl Hrest Hks).
    cbn [set_mode_buffer command_buffer session scroll_offset status_message].
    rewrite chr_ord, append_snoc. reflexivity.
Qed.

(** X23: from normal mode, the key [:], then the characters of a printable
    text, then Enter, run [handle_command] on exactly that text and end in
    normal mode with an empty buffer; the loop breaks exactly when the
    command returned ["QUIT"]. *)
Theorem typed_command_is_run_on_enter :
  forall (float_of_str : string -> option Q) (str_float : Q -> string)
         (t : BinOptTUI) (text now0 now1 : string) (ks : list (Z * string)),
    mode t <> "COMMAND" ->
    printable text ->
    map fst ks = key_codes text ->
    let t_typed := set_mode_buffer t "COMMAND" text in
    let r := handle_command float_of_str str_float t_typed text now1 in
    press_keys float_of_str str_float t
      ((ord ":", now0) :: ks ++ [(10%Z, now1)]) =
    (match fst r with
     | Some res => String.eqb res "QUIT"
     | None => false
     end,
     set_mode_buffer (snd r) "NORMAL" "").
Proof.
  intros float_of_str str_float t text now0 now1 ks Hmode Hpr Hks. cbv zeta.
  cbn [press_keys].
  destruct (handle_key_normal float_of_str str_float t (ord ":") now0 Hmode)
    as (_ & _ & _ & _ & _ & _ & _ & _ & Hcolon & _).
  rewrite (Hcolon eq_refl). rewrite press_keys_app.
  rewrite (press_keys_typing float_of_str str_float text ks
             (set_mode_buffer t "COMMAND" "") eq_refl Hpr Hks).
  change (set_mode_buffer (set_mode_buffer t "COMMAND" "") "COMMAND"
            (command_buffer (set_mode_buffer t "COMMAND" "") ++ text))
    with (set_mode_buffer t "COMMAND" text).
  cbn [fst snd press_keys].
  rewrite handle_key_enter by reflexivity.
  change (command_buffer (set_mode_buffer t "COMMAND" text)) with text.
  destruct (fst (handle_command float_of_str str_float
                   (set_mode_buffer t "COMMAND" text) text now1))
    as [res |]; [destruct (String.eqb res "QUIT") |]; reflexivity.
Qed.

Lemma typed_command_is_run_on_enter_witness :
  mode tui0 <> "COMMAND" /\
  printable "risk 7" /\
  risk_percent
    (session
       (snd (press_keys float_of_digits show_fraction tui0
               ((ord ":", "09:01:00")
                :: map (fun k => (k, "09:01:01")) (key_codes "risk 7")
                ++ [(10%Z, "09:01:02")])))) = 7.
Proof.
  assert (Hmode : mode tui0 <> "COMMAND") by discriminate.
  assert (Hpr : printable "risk 7") by (repeat constructor; discriminate).
  split; [exact Hmode |]. split; [exact Hpr |].
  rewrite (typed_command_is_run_on_enter float_of_digits show_fraction tui0
             "risk 7" "09:01:00" "09:01:02"
             (map (fun k => (k, "09:01:01")) (key_codes "risk 7"))
             Hmode Hpr eq_refl).
  reflexivity.
Defined.

(** ** What the keys can do *)

Lemma set_mode_buffer_same :
  forall t, set_mode_buffer t (mode t) (command_buffer t) = t.
Proof. intros []. reflexivity. Qed.

(** In command mode every key but Enter only edits the mode and the
    buffer. *)
Lemma handle_key_command_cases :
  forall float_of_str str_float t k now,
    mode t = "COMMAND" ->
    k <> 10%Z ->
    exists m buf,
      handle_key float_of_str str_float t k now =
        (false, set_mode_buffer t m buf) /\
      ((m = "NORMAL" /\ buf = "") \/ m = "COMMAND").
Proof.
  intros float_of_str str_float t k now Hmode H10.
  destruct (Z.eq_dec k 27) as [-> | H27].
  { exists "NORMAL", "". split; [apply handle_key_escape, Hmode | auto]. }
  destruct (Z.eq_dec k 127) as [-> | H127].
  { eexists; eexists. split;
      [apply handle_key_backspace; [exact Hmode | auto] | auto]. }
  destruct (Z.eq_dec k KEY_BACKSPACE) as [-> | Hbs].
  { eexists; eexists. split;
      [apply handle_key_backspace; [exact Hmode | auto] | auto]. }
  destruct (Z_le_dec 32 k) as [Hlo |];
    [destruct (Z_le_dec k 126) as [Hhi |] |].
  - eexists; eexists. split;
      [apply handle_key_printable; [exact Hmode | lia] | auto].
  - exists "COMMAND", (command_buffer t). split; [| auto].
    rewrite handle_key_command_other by (assumption || lia).
    rewrite <- Hmode, set_mode_buffer_same. reflexivity.
  - exists "COMMAND", (command_buffer t). split; [| auto].
    rewrite handle_key_command_other by (assumption || lia).
    rewrite <- Hmode, set_mode_buffer_same. reflexivity.
Qed.

(** In normal mode a key records a trade, undoes one, scrolls, opens
    command mode, quits, or does nothing. *)
Lemma handle_key_normal_cases :
  forall float_of_str str_float t k now,
    mode t <> "COMMAND" ->
    let r := handle_key float_of_str str_float t k now in
    (exists res msg,
       (k = ord "w" /\ res = WIN \/ k = ord "l" /\ res = LOSS \/
        k = ord "p" /\ res = PUSH) /\
       r = (false,
            set_status
              (set_session t (record (session t) (mkCall res "CALL" None now)))
              msg)) \/
    (k = ord "u" /\
     exists msg,
       r = (false,
            set_status (set_session t (snd (undo_last_trade (session t))))
              msg)) \/
    (exists off,
       r = (false, set_scroll t off) /\
       ((-1 <= scroll_offset t)%Z -> (-1 <= off)%Z)) \/
    (k = ord ":" /\ r = (false, set_mode_buffer t "COMMAND" "")) \/
    (k = ord "q" /\ r = (true, t)) \/
    (~ In k normal_keys /\ r = (false, t)).
Proof.
  intros float_of_str str_float t k now Hmode. cbv zeta.
  destruct (handle_key_normal float_of_str str_float t k now Hmode)
    as (Hw & Hl & Hp & Hu & Hj & Hk & Hg & HG & Hcolon & Hq & Hother).
  destruct (in_dec Z.eq_dec k normal_keys) as [Hin | Hnin].
  - unfold normal_keys in Hin. cbn [In] in Hin.
    destruct Hin as [E | [E | [E | [E | [E | [E | [E | [E | [E | [E | []]]]]]]]]]];
      symmetry in E.
    + left. exists WIN. eexists. split; [auto | apply Hw, E].
    + left. exists LOSS. eexists. split; [auto | apply Hl, E].
    + left. exists PUSH. eexists. split; [auto 6 | apply Hp, E].
    + right; left. split; [exact E |]. eexists. apply Hu, E.
    + right; right; left. eexists. split; [apply Hj, E | lia].
    + right; right; left. eexists. split; [apply Hk, E |].
      unfold len. lia.
    + right; right; left. eexists. split; [apply Hg, E | lia].
    + right; right; left. eexists. split; [apply HG, E |].
      unfold len. lia.
    + right; right; right; left. split; [exact E | apply Hcolon, E].
    + right; right; right; right; left. split; [exact E | apply Hq, E].
  - right; right; right; right; right. split; [exact Hnin | apply Hother, Hnin].
Qed.

Lemma mode_dec : forall t, {mode t = "COMMAND"} + {mode t <> "COMMAND"}.
Proof. intro t. apply string_dec. Qed.

Lemma handle_command_frame :
  forall float_of_str str_float t cmd now,
    let t' := snd (handle_command float_of_str str_float t cmd now) in
    scroll_offset t' = scroll_offset t /\
    mode t' = mode t /\
    command_buffer t' = command_buffer t /\
    exists ops, session t' = run_ops (session t) ops.
Proof.
  intros float_of_str str_float t cmd now. cbv zeta.
  destruct (handle_command_shape float_of_str str_float t cmd now)
    as [(Hp & ->)
       | [(verb & rest & Hp & Hv & ->)
         | [(verb & rest & msg & Hp & Hnq & _ & ->)
           | [(rest & Hp & ->)
             | (verb & arg & rest & v & msg & Hp & _ & [[Hv ->] | [Hv ->]])]]]];
    cbn [snd set_status set_session session scroll_offset mode command_buffer];
    do 3 (split; [reflexivity |]).
  - exists []. reflexivity.
  - exists []. reflexivity.
  - exists []. reflexivity.
  - exists [OpReset now]. reflexivity.
  - exists [OpSetRisk v]. reflexivity.
  - exists [OpSetPayout v]. reflexivity.
Qed.

Lemma handle_key_interface_ok :
  forall float_of_str str_float t k now,
    interface_ok t ->
    interface_ok (snd (handle_key float_of_str str_float t k now)).
Proof.
  intros float_of_str str_float t k now (Hm & Hbuf & Hsc).
  destruct (mode_dec t) as [Hc | Hn].
  - destruct (Z.eq_dec k 10) as [-> | H10].
    + rewrite handle_key_enter by exact Hc. cbn [snd].
      destruct (handle_command_frame float_of_str str_float t
                  (command_buffer t) now) as (Hs & _).
      unfold interface_ok. cbn [set_mode_buffer mode command_buffer
                                  scroll_offset].
      rewrite Hs. auto.
    + destruct (handle_key_command_cases float_of_str str_float t k now
                  Hc H10) as (m & buf & -> & [[-> ->] | ->]);
        unfold interface_ok;
        cbn [snd set_mode_buffer mode command_buffer scroll_offset].
      * auto.
      * split; [auto |]. split; [discriminate | exact Hsc].
  - destruct (handle_key_normal_cases float_of_str str_float t k now Hn)
      as [(res & msg & _ & ->)
         | [(_ & msg & ->)
           | [(off & -> & Hoff)
             | [(_ & ->) | [(_ & ->) | (_ & ->)]]]]];
      unfold interface_ok;
      cbn [snd set_status set_session set_scroll set_mode_buffer mode
             command_buffer scroll_offset]; auto.
Qed.

(** X24: whatever keys are pressed from the start of the interface, the
    mode is "NORMAL" or "COMMAND", the command buffer is empty whenever the
    mode is "NORMAL", and the scroll offset is at least -1. *)
Theorem keys_keep_interface_well_formed :
  forall (float_of_str : string -> option Q) (str_float : Q -> string)
         (config : Config) (now : string) (ks : list (Z * string)),
    let t := snd (press_keys float_of_str str_float
                    (BinOptTUI_init config now) ks) in
    (mode t = "NORMAL" \/ mode t = "COMMAND") /\
    (mode t = "NORMAL" -> command_buffer t = "") /\
    (-1 <= scroll_offset t)%Z.
Proof.
  intros float_of_str str_float config now ks. cbv zeta.
  change (interface_ok
            (snd (press_keys float_of_str str_float
                    (BinOptTUI_init config now) ks))).
  assert (H0 : interface_ok (BinOptTUI_init config now)).
  { unfold interface_ok. cbn. repeat split; auto. lia. }
  revert H0. generalize (BinOptTUI_init config now).
  induction ks as [| [k stamp] ks IH]; intros t Ht; cbn [press_keys snd];
    [exact Ht |].
  pose proof (handle_key_interface_ok float_of_str str_float t k stamp Ht)
    as Hstep.
  destruct (handle_key float_of_str str_float t k stamp) as [[] t'];
    cbn [snd] in *; [exact Hstep | apply IH, Hstep].
Qed.

Lemma run_ops_app :
  forall s ops1 ops2,
    run_ops s (ops1 ++ ops2) = run_ops (run_ops s ops1) ops2.
Proof. intros s ops1 ops2. unfold run_ops. apply fold_left_app. Qed.

Lemma handle_key_session_step :
  forall float_of_str str_float t k now,
    exists ops,
      session (snd (handle_key float_of_str str_float t k now)) =
      run_ops (session t) ops.
Proof.
  intros float_of_str str_float t k now.
  destruct (mode_dec t) as [Hc | Hn].
  - destruct (Z.eq_dec k 10) as [-> | H10].
    + rewrite handle_key_enter by exact Hc. cbn [snd set_mode_buffer session].
      apply handle_command_frame.
    + destruct (handle_key_command_cases float_of_str str_float t k now
                  Hc H10) as (m & buf & -> & _).
      exists []. reflexivity.
  - destruct (handle_key_normal_cases float_of_str str_float t k now Hn)
      as [(res & msg & _ & ->)
         | [(_ & msg & ->)
           | [(off & -> & _)
             | [(_ & ->) | [(_ & ->) | (_ & ->)]]]]];
      cbn [snd set_status set_session set_scroll set_mode_buffer session].
    + exists [OpRecord (mkCall res "CALL" None now)]. reflexivity.
    + exists [OpUndo]. reflexivity.
    + exists []. reflexivity.
    + exists []. reflexivity.
    + exists []. reflexivity.
    + exists []. reflexivity.
Qed.

(** X25: whatever keys are pressed from the start of the interface, its
    session is one that a sequence of trades, undos, resets and setting
    changes produces from the fresh session; what holds of all those
    sessions holds of every session the interface can show. *)
Theorem keys_reach_only_sessions_of_operations :
  forall (float_of_str : string -> option Q) (str_float : Q -> string)
         (config : Config) (now : string) (ks : list (Z * string)),
    exists ops : list Op,
      session (snd (press_keys float_of_str str_float
                      (BinOptTUI_init config now) ks)) =
      run_ops (Session_init config now) ops.
Proof.
  intros float_of_str str_float config now ks.
  change (Session_init config now)
    with (session (BinOptTUI_init config now)).
  generalize (BinOptTUI_init config now).
  induction ks as [| [k stamp] ks IH]; intro t; cbn [press_keys].
  - exists []. reflexivity.
  - destruct (handle_key_session_step float_of_str str_float t k stamp)
      as (ops1 & H1).
    destruct (handle_key float_of_str str_float t k stamp) as [[] t'];
      cbn [snd] in *.
    + exists ops1. exact H1.
    + destruct (IH t') as (ops2 & H2). exists (ops1 ++ ops2)%list.
      rewrite run_ops_app, <- H1. exact H2.
Qed.

(** X26: in command mode a printable key followed by a backspace (code 127
    or [KEY_BACKSPACE]) leaves the interface exactly as it was, and a
    backspace on an empty buffer changes nothing. *)
Theorem backspace_undoes_typed_key :
  forall (float_of_str : string -> option Q) (str_float : Q -> string)
         (t : BinOptTUI) (k bk : Z) (now now' : string),
    mode t = "COMMAND" ->
    bk = 127%Z \/ bk = KEY_BACKSPACE ->
    ((32 <= k <= 126)%Z ->
     handle_key float_of_str str_float
       (snd (handle_key float_of_str str_float t k now)) bk now' =
     (false, t)) /\
    (command_buffer t = "" ->
     handle_key float_of_str str_float t bk now = (false, t)).
Proof.
  intros float_of_str str_float t k bk now now' Hmode Hbk. split.
  - intro Hk. rewrite (handle_key_printable _ _ t k now Hmode Hk).
    cbn [snd]. rewrite handle_key_backspace by (reflexivity || exact Hbk).
    cbn [set_mode_buffer command_buffer session scroll_offset status_message].
    unfold chr. rewrite drop_last_snoc.
    destruct t; cbn in Hmode |- *. subst. reflexivity.
  - intro Hbuf. rewrite handle_key_backspace by assumption.
    rewrite Hbuf. cbn [drop_last].
    destruct t; cbn in Hmode, Hbuf |- *. subst. reflexivity.
Qed.

Lemma backspace_undoes_typed_key_witness :
  mode (set_mode_buffer tui0 "COMMAND" "ris") = "COMMAND" /\
  handle_key float_of_digits show_fraction
    (snd (handle_key float_of_digits show_fraction
            (set_mode_buffer tui0 "COMMAND" "ris") (ord "k") "09:01:00"))
    127 "09:01:01" =
  (false, set_mode_buffer tui0 "COMMAND" "ris").
Proof.
  assert (Hmode : mode (set_mode_buffer tui0 "COMMAND" "ris") = "COMMAND")
    by reflexivity.
  split; [exact Hmode |].
  apply (proj1 (backspace_undoes_typed_key float_of_digits show_fraction
                  (set_mode_buffer tui0 "COMMAND" "ris") (ord "k") 127
                  "09:01:00" "09:01:01" Hmode (or_introl eq_refl))).
  split; vm_compute; discriminate.
Defined.

(** X27: a key breaks the loop exactly when it is [q] in normal mode, or
    Enter in command mode on a buffer whose command returns ["QUIT"].  The
    session can change only on Enter in command mode and on [w], [l], [p]
    and [u] in normal mode. *)
Theorem loop_breaks_on_quit_only :
  forall (float_of_str : string -> option Q) (str_float : Q -> string)
         (t : BinOptTUI) (k : Z) (now : string),
    let r := handle_key float_of_str str_float t k now in
    (fst r = true <->
     (mode t <> "COMMAND" /\ k = ord "q") \/
     (mode t = "COMMAND" /\ k = 10%Z /\
      fst (handle_command float_of_str str_float t (command_buffer t) now) =
        Some "QUIT")) /\
    ((mode t = "COMMAND" /\ k <> 10%Z) \/
     (mode t <> "COMMAND" /\
      ~ In k [ord "w"; ord "l"; ord "p"; ord "u"]) ->
     session (snd r) = session t).
Proof.
  intros float_of_str str_float t k now. cbv zeta.
  destruct (mode_dec t) as [Hc | Hn].
  - destruct (Z.eq_dec k 10) as [-> | H10].
    + rewrite handle_key_enter by exact Hc. cbn [fst snd]. split.
      * split.
        -- intro H. right. split; [exact Hc |]. split; [reflexivity |].
           destruct (fst (handle_command _ _ t (command_buffer t) now))
             as [res |]; [| discriminate H].
           apply String.eqb_eq in H. subst. reflexivity.
        -- intros [[Hm _] | (_ & _ & H)]; [contradiction |].
           rewrite H. reflexivity.
      * intros [[_ H] | [H _]]; contradiction.
    + destruct (handle_key_command_cases float_of_str str_float t k now
                  Hc H10) as (m & buf & -> & _).
      cbn [fst snd set_mode_buffer session]. split; [| reflexivity].
      split; [discriminate |].
      intros [[H _] | (_ & H & _)]; contradiction.
  - destruct (handle_key_normal_cases float_of_str str_float t k now Hn)
      as [(res & msg & Hk & ->)
         | [(Hk & msg & ->)
           | [(off & Hr & _)
             | [(Hk & ->) | [(Hk & ->) | (Hk & ->)]]]]];
      try rewrite Hr;
      cbn [fst snd set_status set_session set_scroll set_mode_buffer session].
    + split.
      * split; [discriminate |].
        intros [[_ H] | [H _]]; [| contradiction].
        destruct Hk as [[E _] | [[E _] | [E _]]]; rewrite H in E;
          discriminate E.
      * intros [[H _] | [_ H]]; [contradiction |]. exfalso. apply H.
        cbn [In]. destruct Hk as [[E _] | [[E _] | [E _]]]; auto.
    + split.
      * split; [discriminate |].
        intros [[_ H] | [H _]]; [| contradiction].
        rewrite H in Hk. discriminate Hk.
      * intros [[H _] | [_ H]]; [contradiction |]. exfalso. apply H.
        cbn [In]. auto.
    + split; [| reflexivity]. split; [discriminate |].
      intros [[_ H] | [H _]]; [| contradiction].
      subst k. destruct (handle_key_normal float_of_str str_float t
                           (ord "q") now Hn)
        as (_ & _ & _ & _ & _ & _ & _ & _ & _ & Hq & _).
      rewrite (Hq eq_refl) in Hr. discriminate Hr.
    + split; [| reflexivity]. split; [discriminate |].
      intros [[_ H] | [H _]]; [| contradiction].
      rewrite H in Hk. discriminate Hk.
    + split; [| reflexivity]. split; [auto | reflexivity].
    + split; [| reflexivity]. split; [discriminate |].
      intros [[_ H] | [H _]]; [| contradiction].
      exfalso. apply Hk. subst k. unfold normal_keys. cbn [In]. auto 12.
Qed.

Lemma loop_breaks_on_quit_only_witness :
  (mode tui0 <> "COMMAND" /\
   ~ In (ord "j") [ord "w"; ord "l"; ord "p"; ord "u"]) /\
  session (snd (handle_key float_of_digits show_fraction tui0 (ord "j")
                  "09:01:00")) = session tui0.
Proof.
  assert (H : mode tui0 <> "COMMAND" /\
              ~ In (ord "j") [ord "w"; ord "l"; ord "p"; ord "u"]).
  { split; [discriminate |]. cbn [In].
    intros [E | [E | [E | [E | []]]]]; discriminate E. }
  split; [exact H |].
  apply (proj2 (loop_breaks_on_quit_only float_of_digits show_fraction tui0
                  (ord "j") "09:01:00")).
  right. exact H.
Defined.

Lemma set_session_same :
  forall t msg, set_status (set_session t (session t)) msg = set_status t msg.
Proof. intros [] msg. reflexivity. Qed.

(** X28: in normal mode the keys [w], [l] and [p] append exactly one trade
    to the history, of outcome WIN, LOSS and PUSH, labelled "CALL", stamped
    with the clock reading and carrying the risk of the current balance,
    and report it as logged; [u] on an empty history reports "No trades to
    undo" and changes nothing else, and on any other history reports "Last
    trade undone" and drops the last trade. *)
Theorem trade_and_undo_keys :
  forall (float_of_str : string -> option Q) (str_float : Q -> string)
         (t : BinOptTUI) (now : string),
    mode t <> "COMMAND" ->
    (forall k res msg,
       In (k, res, msg)
         [(ord "w", WIN, "WIN logged"); (ord "l", LOSS, "LOSS logged");
          (ord "p", PUSH, "PUSH logged")] ->
       let t' := snd (handle_key float_of_str str_float t k now) in
       exists trade,
         trades (session t') = (trades (session t) ++ [trade])%list /\
         result trade = res /\ trade_type trade = "CALL" /\
         timestamp trade = now /\
         risk_amount trade = current_risk_amount (session t) /\
         status_message t' = msg) /\
    (trades (session t) = [] ->
     handle_key float_of_str str_float t (ord "u") now =
       (false, set_status t "No trades to undo")) /\
    (forall ts last_trade,
       trades (session t) = (ts ++ [last_trade])%list ->
       let t' := snd (handle_key float_of_str str_float t (ord "u") now) in
       trades (session t') = ts /\
       status_message t' = "Last trade undone").
Proof.
  intros float_of_str str_float t now Hmode.
  destruct (handle_key_normal float_of_str str_float t (ord "u") now Hmode)
    as (_ & _ & _ & Hu & _).
  specialize (Hu eq_refl).
  split; [| split].
  - intros k res msg Hin. cbv zeta.
    destruct (handle_key_normal float_of_str str_float t k now Hmode)
      as (Hw & Hl & Hp & _).
    cbn [In] in Hin.
    destruct Hin as [E | [E | [E | []]]]; injection E as <- <- <-;
      [rewrite (Hw eq_refl) | rewrite (Hl eq_refl) | rewrite (Hp eq_refl)];
      eexists; repeat split.
  - intro E. rewrite Hu, (undo_last_trade_empty _ E). cbn [fst snd].
    rewrite set_session_same. reflexivity.
  - intros ts last_trade E. cbv zeta. rewrite Hu.
    destruct (undo_last_trade_app _ ts last_trade E) as (Hok & Htr & _).
    cbn [snd set_status set_session session status_message].
    rewrite Hok. split; [exact Htr | reflexivity].
Qed.

Lemma trade_and_undo_keys_witness :
  mode tui0 <> "COMMAND" /\
  trades (session tui0) = [] /\
  handle_key float_of_digits show_fraction tui0 (ord "u") "09:01:00" =
    (false, set_status tui0 "No trades to undo").
Proof.
  assert (Hmode : mode tui0 <> "COMMAND") by discriminate.
  split; [exact Hmode |]. split; [reflexivity |].
  apply (proj1 (proj2 (trade_and_undo_keys float_of_digits show_fraction tui0
                         "09:01:00" Hmode))).
  reflexivity.
Defined.

(** ** The history box *)

Lemma firstn_min_length :
  forall (A : Type) (b : nat) (v : list A),
    firstn (Nat.min b (List.length v)) v = firstn b v.
Proof.
  intros A b v. destruct (Nat.le_ge_cases b (List.length v)) as [H | H].
  - rewrite Nat.min_l by exact H. reflexivity.
  - rewrite Nat.min_r by exact H.
    rewrite firstn_all, firstn_all2 by exact H. reflexivity.
Qed.

Lemma slice_to_nonneg :
  forall (A : Type) (v : list A) (b : Z),
    (0 <= b)%Z -> slice_to v b = firstn (Z.to_nat b) v.
Proof.
  intros A v b Hb. unfold slice_to, slice_bound, len.
  rewrite (proj2 (Z.ltb_ge b 0)) by exact Hb.
  rewrite Z2Nat.inj_min, Nat2Z.id. apply firstn_min_length.
Qed.

(** The part of the history the box reads: its most recent
    [scroll_offset + history_height - 3] trades, most recent first, or all
    of it when that number is zero. *)
Lemma visible_trades_recent_first :
  forall (ts : list Trade) (off h : Z),
    (0 <= off)%Z -> (3 <= h)%Z ->
    exists c : nat,
      rev (slice_from ts (- off - h + 3)%Z) = firstn c (rev ts) /\
      (Z.to_nat (h - 3) <= c)%nat.
Proof.
  intros ts off h Hoff Hh. unfold slice_from, slice_bound, len.
  destruct (- off - h + 3 <? 0)%Z eqn:E.
  - apply Z.ltb_lt in E. exists (Z.to_nat (off + (h - 3))).
    split; [| lia].
    rewrite firstn_rev. do 2 f_equal. lia.
  - apply Z.ltb_ge in E. exists (List.length ts).
    assert (Hz : Z.min (- off - h + 3) (Z.of_nat (List.length ts)) = 0%Z)
      by lia.
    rewrite Hz. cbn [Z.to_nat skipn].
    split; [| lia]. symmetry.
    rewrite <- (length_rev ts). apply firstn_all.
Qed.

(** X29: with a scroll offset that is not negative and a box at least 3
    high, the rows of the history box show the [history_height - 3] most
    recent trades, most recent first, whatever the scroll offset is; the
    offset only shifts the number printed in front of each row, which is
    the length of the history minus the row index minus the offset. *)
Theorem history_rows_ignore_scroll_offset :
  forall (ts : list Trade) (scroll_offset history_height : Z),
    (0 <= scroll_offset)%Z -> (3 <= history_height)%Z ->
    history_rows ts scroll_offset history_height =
      map (fun it => ((len ts - fst it - scroll_offset)%Z, snd it))
        (enumerate_from 0
           (firstn (Z.to_nat (history_height - 3)) (rev ts))) /\
    map snd (history_rows ts scroll_offset history_height) =
      map snd (history_rows ts 0 history_height).
Proof.
  assert (Hrows : forall ts off h,
             (0 <= off)%Z -> (3 <= h)%Z ->
             history_rows ts off h =
             map (fun it => ((len ts - fst it - off)%Z, snd it))
               (enumerate_from 0 (firstn (Z.to_nat (h - 3)) (rev ts)))).
  { intros ts off h Hoff Hh. unfold history_rows.
    destruct (visible_trades_recent_first ts off h Hoff Hh) as (c & -> & Hc).
    rewrite slice_to_nonneg by lia.
    rewrite firstn_firstn, Nat.min_l by exact Hc. reflexivity. }
  intros ts off h Hoff Hh. split; [apply Hrows; assumption |].
  rewrite (Hrows ts off h Hoff Hh), (Hrows ts 0%Z h) by lia.
  rewrite !map_map. reflexivity.
Qed.

Lemma history_rows_ignore_scroll_offset_witness :
  (0 <= 1)%Z /\ (3 <= 4)%Z /\
  map snd (history_rows (trades session2) 1 4) =
    map snd (history_rows (trades session2) 0 4).
Proof.
  assert (H1 : (0 <= 1)%Z) by lia. assert (H2 : (3 <= 4)%Z) by lia.
  split; [exact H1 |]. split; [exact H2 |].
  exact (proj2 (history_rows_ignore_scroll_offset (trades session2) 1 4
                  H1 H2)).
Defined.

(** * Properties of the ledger in binary64

    In this part the names of the ledger are those of [Binary64]. *)

Section Binary64Properties.

Import Binary64.
Local Open Scope float_scope.

(** ** One trade *)

Lemma b64_record_trades :
  forall s c,
    trades (record s c) =
    (trades s ++
     [fst (add_trade s (call_result c) (call_type c) (call_risk c)
             (call_time c))])%list.
Proof. intros s [[] ty risk now]; reflexivity. Qed.

Lemma b64_record_balance_after :
  forall s c,
    balance_after
      (fst (add_trade s (call_result c) (call_type c) (call_risk c)
              (call_time c))) = current_balance (record s c).
Proof. intros s [[] ty risk now]; reflexivity. Qed.

(** The new balance is the old one with the recorded trade settled on it:
    the trade stores the very amounts that were applied. *)
Lemma b64_record_settle :
  forall s c,
    current_balance (record s c) =
    settle (current_balance s)
      (fst (add_trade s (call_result c) (call_type c) (call_risk c)
              (call_time c))).
Proof. intros s [[] ty risk now]; reflexivity. Qed.

Lemma b64_record_frame :
  forall s c,
    initial_balance (record s c) = initial_balance s /\
    risk_percent (record s c) = risk_percent s /\
    payout_percent (record s c) = payout_percent s /\
    stop_loss_percent (record s c) = stop_loss_percent s /\
    max_consecutive_losses (record s c) = max_consecutive_losses s.
Proof. intros s [[] ty risk now]; repeat split. Qed.

Lemma b64_record_result :
  forall s c,
    result (fst (add_trade s (call_result c) (call_type c) (call_risk c)
                   (call_time c))) = call_result c.
Proof. intros s [[] ty risk now]; reflexivity. Qed.

(** ** Undo *)

Lemma b64_undo_empty :
  forall s, trades s = [] -> undo_last_trade s = (false, s).
Proof. intros s H. unfold undo_last_trade. rewrite H. reflexivity. Qed.

Lemma b64_undo_app :
  forall s ts t,
    trades s = (ts ++ [t])%list ->
    let s' := snd (undo_last_trade s) in
    trades s' = ts /\
    current_balance s' = recent_balance (initial_balance s) (rev ts) /\
    initial_balance s' = initial_balance s.
Proof.
  intros s ts t H. unfold undo_last_trade. rewrite H.
  destruct (ts ++ [t])%list as [| x xs] eqn:E.
  - destruct ts; discriminate E.
  - rewrite <- E, removelast_last. repeat split.
Qed.

Lemma b64_history_empty_dec :
  forall s : Session, {trades s = []} + {trades s <> []}.
Proof.
  intro s. destruct (trades s); [left; reflexivity | right; discriminate].
Qed.

(** ** The ledger agrees with its history *)

Lemma b64_init_ledger_ok :
  forall config now, ledger_ok (Session_init config now).
Proof. intros config now. split; [reflexivity | exact I]. Qed.

Lemma b64_record_ledger_ok :
  forall s c, ledger_ok s -> ledger_ok (record s c).
Proof.
  intros s c [Hbal Hchain]. unfold ledger_ok, snapshot_balance.
  destruct (b64_record_frame s c) as (Hinit & _).
  rewrite b64_record_trades, rev_unit, Hinit.
  cbn [recent_balance snapshots_chain].
  rewrite b64_record_balance_after. split; [reflexivity |].
  split; [| exact Hchain].
  fold (snapshot_balance s). rewrite <- Hbal. apply b64_record_settle.
Qed.

Lemma b64_undo_ledger_ok :
  forall s, ledger_ok s -> ledger_ok (snd (undo_last_trade s)).
Proof.
  intros s [Hbal Hchain].
  destruct (b64_history_empty_dec s) as [E | Hne].
  - rewrite b64_undo_empty by exact E. split; assumption.
  - destruct (exists_last Hne) as (ts & t & Hts).
    destruct (b64_undo_app s ts t Hts) as (Htr & Hcur & Hinit).
    unfold ledger_ok, snapshot_balance. rewrite Htr, Hinit, Hcur.
    split; [reflexivity |].
    rewrite Hts, rev_unit in Hchain. apply Hchain.
Qed.

Lemma b64_apply_op_ledger_ok :
  forall s op, ledger_ok s -> ledger_ok (apply_op s op).
Proof.
  intros s [c | | now | v | v] H; cbn [apply_op].
  - apply b64_record_ledger_ok, H.
  - apply b64_undo_ledger_ok, H.
  - apply b64_init_ledger_ok.
  - exact H.
  - exact H.
Qed.

Lemma b64_run_ops_ledger_ok :
  forall ops s, ledger_ok s -> ledger_ok (run_ops s ops).
Proof.
  unfold run_ops.
  induction ops as [| op ops IH]; intros s H; cbn [fold_left];
    [exact H | apply IH, b64_apply_op_ledger_ok, H].
Qed.

Lemma b64_apply_op_initial_balance :
  forall s op, initial_balance (apply_op s op) = initial_balance s.
Proof.
  intros s [c | | now | v | v]; cbn [apply_op]; try reflexivity.
  - apply b64_record_frame.
  - destruct (b64_history_empty_dec s) as [E | Hne].
    + rewrite b64_undo_empty by exact E. reflexivity.
    + destruct (exists_last Hne) as (ts & t & Hts).
      apply (b64_undo_app s ts t Hts).
Qed.

Lemma b64_run_ops_initial_balance :
  forall ops s, initial_balance (run_ops s ops) = initial_balance s.
Proof.
  unfold run_ops.
  induction ops as [| op ops IH]; intro s; cbn [fold_left];
    [reflexivity | rewrite IH; apply b64_apply_op_initial_balance].
Qed.

(** A chain of snapshots ends on the replay of its trades. *)
Lemma b64_snapshots_chain_replay :
  forall init recent_first,
    snapshots_chain init recent_first ->
    recent_balance init recent_first =
    replay_balance init (rev recent_first).
Proof.
  induction recent_first as [| t older IH];
    cbn [snapshots_chain recent_balance rev]; [reflexivity |].
  intros [Ht Holder]. unfold replay_balance in *.
  rewrite fold_left_app. cbn [fold_left].
  rewrite <- (IH Holder). exact Ht.
Qed.

Lemma b64_ledger_ok_replay :
  forall s, ledger_ok s ->
    current_balance s = replay_balance (initial_balance s) (trades s).
Proof.
  intros s [Hbal Hchain]. rewrite Hbal. unfold snapshot_balance.
  rewrite (b64_snapshots_chain_replay _ _ Hchain), rev_involutive.
  reflexivity.
Qed.

Lemma b64_record_all_run_ops :
  forall calls s, record_all s calls = run_ops s (map OpRecord calls).
Proof.
  unfold record_all, run_ops.
  induction calls as [| c calls IH]; intro s; cbn [fold_left map];
    [reflexivity | apply IH].
Qed.

Lemma b64_record_all_results :
  forall calls s,
    map result (trades (record_all s calls)) =
    (map result (trades s) ++ map call_result calls)%list.
Proof.
  unfold record_all.
  induction calls as [| c calls IH]; intro s; cbn [fold_left map].
  - rewrite app_nil_r. reflexivity.
  - rewrite IH, b64_record_trades, map_app, <- app_assoc. cbn [map app].
    rewrite b64_record_result. reflexivity.
Qed.

(** C3 (amended): after any sequence of [add_trade] calls on a fresh
    session the balance is the initial balance with the recorded trades
    settled on it one after the other, in the order of the calls, each by
    the one binary64 operation of its outcome: a WIN adds its payout, a LOSS
    subtracts its risk amount, a PUSH leaves the balance as it is. *)
Theorem balance_is_ordered_replay :
  forall (config : Config) (now : string) (calls : list Call),
    let s := record_all (Session_init config now) calls in
    current_balance s =
      replay_balance (cfg_initial_balance config) (trades s) /\
    map result (trades s) = map call_result calls.
Proof.
  intros config now calls. cbv zeta. split.
  - rewrite b64_record_all_run_ops.
    rewrite (b64_ledger_ok_replay _
               (b64_run_ops_ledger_ok _ _ (b64_init_ledger_ok config now))).
    rewrite b64_run_ops_initial_balance. reflexivity.
  - rewrite b64_record_all_results. reflexivity.
Qed.

(** C3 as stated fails after three wins on the default session: the balance
    is 2249.7279999999996 ([0x1.19374bc6a7ef9p+11]), the initial balance plus
    the sum of the three profits is 2249.7280000000001, one unit in the last
    place above, and [==] on the two gives [False]. *)
Lemma balance_differs_from_initial_plus_sum :
  map result (trades three_wins) = [WIN; WIN; WIN] /\
  current_balance three_wins = 0x1.19374bc6a7ef9p+11 /\
  initial_balance three_wins + sum_profit_loss (trades three_wins) =
    0x1.19374bc6a7efap+11 /\
  (current_balance three_wins =?
   initial_balance three_wins + sum_profit_loss (trades three_wins)) = false.
Proof. repeat split; vm_compute; reflexivity. Qed.

(** X1: in every session reached from a fresh one by trades, undos, resets
    and setting changes (whatever floats the settings are given, [nan]
    included), the initial balance is the configured one, the balance is the
    snapshot of the last trade in the history (the initial balance when the
    history is empty), every snapshot is the one before it with the trade
    settled on it, and so the balance is the replay of the surviving history
    from the initial balance. *)
Theorem reachable_balance_is_ordered_replay :
  forall (config : Config) (now : string) (ops : list Op),
    let s := run_ops (Session_init config now) ops in
    initial_balance s = cfg_initial_balance config /\
    current_balance s = snapshot_balance s /\
    snapshots_chain (initial_balance s) (rev (trades s)) /\
    current_balance s =
      replay_balance (cfg_initial_balance config) (trades s).
Proof.
  intros config now ops. cbv zeta.
  pose proof (b64_run_ops_ledger_ok ops _ (b64_init_ledger_ok config now))
    as Hok.
  pose proof (b64_run_ops_initial_balance ops (Session_init config now))
    as Hinit.
  cbn [Session_init initial_balance] in Hinit.
  split; [exact Hinit |]. split; [apply Hok |]. split; [apply Hok |].
  rewrite <- Hinit. apply b64_ledger_ok_replay, Hok.
Qed.

(** ** The risk of a trade *)




(** ** Stop conditions *)




(** ** A losing run *)

Lemma b64_record_loss_streaks :
  forall s c,
    call_result c = LOSS ->
    consecutive_losses (record s c) = (consecutive_losses s + 1)%Z /\
    consecutive_wins (record s c) = 0%Z.
Proof.
  intros s [r ty risk now] H. cbn in H. subst r. split; reflexivity.
Qed.

(** X16: a run of [n] losses, with or without risk overrides, adds [n] to
    the loss counter and, when [n] is not zero, leaves the win counter at
    zero; once the loss counter has reached [max_consecutive_losses],
    [should_stop] returns true, with one reason or the other, provided the
    initial balance does not compare equal to zero. *)
Theorem losing_run_reaches_loss_limit :
  forall (format_1f : float -> string) (s : Session) (calls : list Call),
    Forall (fun c => call_result c = LOSS) calls ->
    let s' := record_all s calls in
    consecutive_losses s' = (consecutive_losses s + len calls)%Z /\
    (calls <> [] -> consecutive_wins s' = 0%Z) /\
    ((initial_balance s =? 0) = false ->
     (max_consecutive_losses s <= consecutive_losses s + len calls)%Z ->
     exists reason : string, should_stop format_1f s' = Ok (true, reason)).
Proof.
  intros format_1f s calls Hcalls. cbv zeta.
  assert (Hrun :
    consecutive_losses (record_all s calls) =
      (consecutive_losses s + len calls)%Z /\
    (calls <> [] -> consecutive_wins (record_all s calls) = 0%Z) /\
    initial_balance (record_all s calls) = initial_balance s /\
    max_consecutive_losses (record_all s calls) = max_consecutive_losses s).
  { revert s. unfold record_all.
    induction Hcalls as [| c calls Hc Hrest IH]; intro s; cbn [fold_left].
    - unfold len. cbn. repeat split; [lia | intro H; contradiction].
    - destruct (IH (record s c)) as (Hl & Hw & Hi & Hm).
      destruct (b64_record_loss_streaks s c Hc) as [Hl1 Hw1].
      destruct (b64_record_frame s c) as (Hi1 & _ & _ & _ & Hm1).
      split; [| split; [| split]].
      + rewrite Hl, Hl1. unfold len. cbn [List.length]. lia.
      + intros _. destruct calls as [| c2 calls2];
          [exact Hw1 | apply Hw; discriminate].
      + rewrite Hi. exact Hi1.
      + rewrite Hm. exact Hm1. }
  destruct Hrun as (Hl & Hw & Hi & Hm).
  split; [exact Hl |]. split; [exact Hw |].
  intros Hinit Hmax. unfold should_stop, pydiv. rewrite Hi, Hinit.
  cbn [bind].
  destruct (stop_loss_percent (record_all s calls) <=? _);
    [eexists; reflexivity |].
  rewrite Hl, Hm.
  rewrite (proj2 (Z.geb_le _ _)) by exact Hmax.
  eexists. reflexivity.
Qed.

Lemma losing_run_reaches_loss_limit_witness :
  Forall (fun c => call_result c = LOSS)
    [call LOSS; call LOSS; call LOSS; call LOSS; call LOSS] /\
  consecutive_losses
    (record_all session0
       [call LOSS; call LOSS; call LOSS; call LOSS; call LOSS]) = 5%Z /\
  exists reason : string,
    should_stop no_digits
      (record_all session0
         [call LOSS; call LOSS; call LOSS; call LOSS; call LOSS]) =
    Ok (true, reason).
Proof.
  assert (H : Forall (fun c => call_result c = LOSS)
                [call LOSS; call LOSS; call LOSS; call LOSS; call LOSS])
    by (repeat constructor).
  destruct (losing_run_reaches_loss_limit no_digits session0 _ H)
    as (Hl & _ & Hstop).
  split; [exact H |]. split; [exact Hl |].
  apply Hstop; [reflexivity | vm_compute; intro E; discriminate E].
Defined.

End Binary64Properties.
